(** * Trusted checkpoints of the Dinastycoin node

    A shallow embedding of [src/checkpoints/checkpoints.cpp]: the class
    [cryptonote::checkpoints] with its two ordered maps, the insertion gate
    [add_checkpoint], the point queries [check_block],
    [is_in_checkpoint_zone], [get_max_height], the reorganisation gate
    [is_alternative_block_allowed], the comparison [check_for_conflicts] and
    the loader [load_checkpoints_from_json].

    Heights are [uint64_t] in the source.  The code only compares heights
    (it never adds or subtracts them), so they are embedded as [N] and no
    wrap-around can be observed. *)

From Stdlib Require Import PeanoNat NArith List String Ascii Bool Lia.
Import ListNotations.
Local Open Scope N_scope.

(** ** [std::map<uint64_t, V>]

    An ordered map is a list of (key, value) pairs kept in strictly
    increasing key order.  An iterator is a position in that list:
    [begin] is position 0 and [end_] is the length. *)
Module StdMap.

Definition t (V : Type) : Type := list (N * V).

Definition iterator : Type := nat.

Definition empty {V} (m : t V) : bool :=
  match m with
  | [] => true
  | _ :: _ => false
  end.

Definition begin {V} (m : t V) : iterator := 0%nat.

Definition end_ {V} (m : t V) : iterator := List.length m.

Definition keys {V} (m : t V) : list N := map fst m.

(** [it->first]; only used on positions before [end_]. *)
Definition first {V} (m : t V) (it : iterator) : N := nth it (keys m) 0.

(** [m.find(k)]: [None] stands for the iterator [m.end()]. *)
Fixpoint find {V} (k : N) (m : t V) : option V :=
  match m with
  | [] => None
  | (k', v) :: rest => if k =? k' then Some v else find k rest
  end.

(** [m[k] = v]: replaces the value under [k], or inserts the pair at its
    place in key order. *)
Fixpoint assign {V} (k : N) (v : V) (m : t V) : t V :=
  match m with
  | [] => [(k, v)]
  | (k', v') :: rest =>
      if k <? k' then (k, v) :: m
      else if k =? k' then (k, v) :: rest
      else (k', v') :: assign k v rest
  end.

(** [m.upper_bound(k)]: the position of the first key strictly greater than
    [k], or [end_] when there is none. *)
Fixpoint upper_bound {V} (k : N) (m : t V) : iterator :=
  match m with
  | [] => 0%nat
  | (k', _) :: rest => if k <? k' then 0%nat else S (upper_bound k rest)
  end.

(** The representation invariant: keys strictly increasing. *)
Fixpoint ordered {V} (m : t V) : bool :=
  match m with
  | [] => true
  | (k1, _) :: rest =>
      match rest with
      | [] => true
      | (k2, _) :: _ => (k1 <? k2) && ordered rest
      end
  end.

End StdMap.

(** ** External collaborators

    The hash type with its hex codec and the difficulty type with its
    string constructor live outside [checkpoints.cpp]; the model takes them
    as an interface.
    - [crypto_hash] is [crypto::hash], compared with [operator==];
    - [hex_to_pod s] is [epee::string_tools::hex_to_pod(s, h)]: [Some h]
      when the call returns [true], [None] when it returns [false];
    - [difficulty_of_string s] is the constructor [difficulty_type(s)]:
      [None] when it throws. *)
Class Externals : Type := {
  crypto_hash : Type;
  crypto_hash_eq_dec : forall a b : crypto_hash, {a = b} + {a <> b};
  difficulty_type : Type;
  difficulty_eq_dec : forall a b : difficulty_type, {a = b} + {a <> b};
  hex_to_pod : string -> option crypto_hash;
  difficulty_of_string : string -> option difficulty_type
}.

(** A checkpoint line of the json file. *)
Record t_hashline : Type := {
  height : N;
  hash : string
}.

(** The checkpoint lines of the json file. *)
Record t_hash_json : Type := {
  hashlines : list t_hashline
}.

(** What [load_checkpoints_from_json] finds at the path it is given:
    [boost::filesystem::exists] is false, [load_t_from_json_file] fails, or
    the file parses. *)
Inductive json_hashfile : Type :=
| file_not_found
| file_malformed
| file_parsed (hashes : t_hash_json).

Inductive network_type : Type := MAINNET | TESTNET | STAGENET.

Section Checkpoints.
Context {ext : Externals}.

(** The class [checkpoints]: its two data members. *)
Record checkpoints : Type := {
  m_points : StdMap.t crypto_hash;
  m_difficulty_points : StdMap.t difficulty_type
}.

(** The constructor [checkpoints::checkpoints()]. *)
Definition new_checkpoints : checkpoints :=
  {| m_points := []; m_difficulty_points := [] |}.

Definition set_m_points (this : checkpoints) (m : StdMap.t crypto_hash)
  : checkpoints :=
  {| m_points := m; m_difficulty_points := m_difficulty_points this |}.

Definition set_m_difficulty_points (this : checkpoints)
  (m : StdMap.t difficulty_type) : checkpoints :=
  {| m_points := m_points this; m_difficulty_points := m |}.

(** [h == stored] on hashes and on difficulties. *)
Definition hash_eqb (a b : crypto_hash) : bool :=
  if crypto_hash_eq_dec a b then true else false.

Definition difficulty_eqb (a b : difficulty_type) : bool :=
  if difficulty_eq_dec a b then true else false.

(** Modelled from the spec: the macro [CHECK_AND_ASSERT_MES] comes from
    epee's logging header, which is not under src/.  The spec's "succeed
    only if the stored hash equals the new one; otherwise fail" and the
    source comment "return false if adding at a height we already have AND
    the hash is different" give its control flow: when [expr] is false the
    enclosing function returns [fail_ret_val] at once, otherwise it goes
    on. *)
Definition CHECK_AND_ASSERT_MES {R : Type} (expr : bool) (fail_ret_val : R)
  (rest : R) : R :=
  if expr then rest else fail_ret_val.

(** A mutating member function returns its [bool] together with the object
    after the call.  The test [m.count(height)] followed by the read
    [m[height]] is one lookup: [Some stored] when the key is there, [None]
    when the count is 0 and the check is not made. *)
Definition add_checkpoint (this : checkpoints) (height : N)
  (hash_str difficulty_str : string) : bool * checkpoints :=
  match hex_to_pod hash_str with
  | None => (false, this)
  | Some h =>
      CHECK_AND_ASSERT_MES
        (match StdMap.find height (m_points this) with
         | Some stored => hash_eqb h stored
         | None => true
         end)
        (false, this)
        (let this := set_m_points this (StdMap.assign height h (m_points this)) in
         match difficulty_str with
         | EmptyString => (true, this)
         | String _ _ =>
             match difficulty_of_string difficulty_str with
             | None => (false, this)
             | Some difficulty =>
                 CHECK_AND_ASSERT_MES
                   (match StdMap.find height (m_difficulty_points this) with
                    | Some stored => difficulty_eqb difficulty stored
                    | None => true
                    end)
                   (false, this)
                   (true,
                    set_m_difficulty_points this
                      (StdMap.assign height difficulty
                         (m_difficulty_points this)))
             end
         end)
  end.

Definition is_in_checkpoint_zone (this : checkpoints) (height : N) : bool :=
  negb (StdMap.empty (m_points this))
  && (height <=? StdMap.first (m_points this)
                   (Nat.pred (StdMap.end_ (m_points this)))).

(** [check_block(height, h, is_a_checkpoint)]: the returned pair is the
    result and the value left in [is_a_checkpoint]. *)
Definition check_block (this : checkpoints) (height : N) (h : crypto_hash)
  : bool * bool :=
  match StdMap.find height (m_points this) with
  | None => (true, false)
  | Some stored => if hash_eqb stored h then (true, true) else (false, true)
  end.

(** The two-argument overload drops [is_a_checkpoint]. *)
Definition check_block2 (this : checkpoints) (height : N) (h : crypto_hash)
  : bool :=
  fst (check_block this height h).

Definition is_alternative_block_allowed (this : checkpoints)
  (blockchain_height block_height : N) : bool :=
  if 0 =? block_height then false
  else
    let it := StdMap.upper_bound blockchain_height (m_points this) in
    if Nat.eqb it (StdMap.begin (m_points this)) then true
    else
      let it := Nat.pred it in
      let checkpoint_height := StdMap.first (m_points this) it in
      checkpoint_height <? block_height.

Definition get_max_height (this : checkpoints) : N :=
  if StdMap.empty (m_points this) then 0
  else StdMap.first (m_points this)
         (Nat.pred (StdMap.end_ (m_points this))).

Definition get_points (this : checkpoints) : StdMap.t crypto_hash :=
  m_points this.

Definition get_difficulty_points (this : checkpoints)
  : StdMap.t difficulty_type :=
  m_difficulty_points this.

(** The loop of [check_for_conflicts] over the points still to visit. *)
Fixpoint check_for_conflicts_loop (this : checkpoints)
  (pts : list (N * crypto_hash)) : bool :=
  match pts with
  | [] => true
  | pt :: rest =>
      CHECK_AND_ASSERT_MES
        (match StdMap.find (fst pt) (m_points this) with
         | Some stored => hash_eqb (snd pt) stored
         | None => true
         end)
        false
        (check_for_conflicts_loop this rest)
  end.

(** [check_for_conflicts] is a [const] member: it yields a [bool] and the
    object after the call is the object before it. *)
Definition check_for_conflicts (this other : checkpoints) : bool :=
  check_for_conflicts_loop this (get_points other).

(** Modelled from the spec: the macro [ADD_CHECKPOINT(h, hash)] is declared
    in checkpoints.h, which is not under src/.  It inserts through "the
    normal conflict-checked path", [add_checkpoint] with no difficulty
    string, and a failed insertion makes the enclosing loader return
    [false]. *)
Definition ADD_CHECKPOINT (this : checkpoints) (h : N) (hash_str : string)
  (rest : checkpoints -> bool * checkpoints) : bool * checkpoints :=
  let (r, this) := add_checkpoint this h hash_str EmptyString in
  CHECK_AND_ASSERT_MES r (false, this) (rest this).

(** A run of [ADD_CHECKPOINT] statements, one per pair, ending in
    [return true]. *)
Fixpoint add_checkpoints (this : checkpoints) (pts : list (N * string))
  : bool * checkpoints :=
  match pts with
  | [] => (true, this)
  | (h, hash_str) :: rest =>
      ADD_CHECKPOINT this h hash_str (fun this => add_checkpoints this rest)
  end.

(** The literals of [init_default_checkpoints], in source order. *)
Definition default_checkpoints : list (N * string) :=
  [
    (1, "7b9b6064c13231bda96759fcabd21255af66f94ddece53695509ecb528479667"%string);
    (10, "7fff6b1b180abe1ade902232b0d39372dd165e82addd0a12514b69115ab29789"%string);
    (100, "b922e51c7cccba7f7fd12b395b942a6092566c47879862b127405dc16c3b415a"%string);
    (500, "4161494672a7ef39e1a1c6d5e4b3c6e899b5a945cd1dd7239ad734189c663f29"%string);
    (1000, "f75b44cbf1f070814ae83bb54d0d0b98ee0583633ed88b21088a3957ccb675c0"%string);
    (2000, "a739216d63de35fa69c74ff22c2ed201fd2d0dbe7c38a8bbdbb64368fd18aff1"%string);
    (3000, "0d5882e703a4e715450cc2538ead37d2ad2960c0ad9245546187c04b11ae5b4c"%string);
    (4000, "d66aee31dff6b06f5d6f56fdaab71247325b818968c3c555f6626969965487eb"%string);
    (5000, "458bf83117978a24c16e77419d450e81dc808ed8288e3ff301f3e9ff41520b0a"%string);
    (5353, "e96ad3449cec0f97978f1c79120d713c1753116d778b33c6d5609bed99fdd2a7"%string);
    (5500, "58cea8b62686f3a3c0c8f9edd30b02810cad1033ad2eea05fe47f63f0838a460"%string);
    (5544, "963e97cad472b7ab43676129d7eb87c0791ee0f160634ea7d26b02f29230c740"%string);
    (6000, "50f4c25ab0997c79f47b32aa7a766a3821e5e40935d46e03260ca1a913138df1"%string);
    (6500, "f26226611fcd1437882f1a3a484cc8823ea59d009cace890620c093b587b4487"%string);
    (7000, "522b3f918a3976bf79b4802aba906c318880d73daef5e8a3d168b59096a43f3c"%string);
    (8000, "ee949fccb6f4db661f5a38e4c8f487dbaf5bd18bacfb4d77b32eb3bc3abb7794"%string);
    (9500, "b62d0dae7be7012138af83244160797389fffb3ef2aae2ec3d91082b1a58a047"%string);
    (10000, "92388506769d6ee510af6f480099a1f5466a6cae855bb5c51e0bb328457cd5d4"%string);
    (12000, "63554dd0ae6f178f5a8bb94232e5004cae09d3d797d0953c48d0cd93b6b3743c"%string);
    (15622, "189a796e8fb84bdcca69cf8dc2336f0d652a11504dc9c8b5da7f217ae331e867"%string);
    (20000, "5507b571ba1f634810627ca2a8450b894d474762cffd79ddbfaefee3b96f22a5"%string);
    (32139, "b6bb051810a65fdf20c12b8b847e306e670861abeecbfb126b7eb3be55f559ac"%string);
    (39638, "e8d7e2d5389ed04e6beaa53dbc6707a47e76d8f86f074a434ff2e4ff74cda5f3"%string);
    (226000, "d4e076d8a4c23e6e51df50ae038f710fe83b1363c69b5d6c94c3d227912ff10c"%string);
    (263664, "3ea3ebf33bc4c73b00d28addabdf47ca2bf9b0a202f2646a01f5a9121e5d3a54"%string);
    (300000, "8c5a9f86b20861c1dee6ab90ac86d0b1816163c11f5cf8e23566157e36043998"%string);
    (325000, "bc68a60c42480c04877d97611a6d161bf53d5a6c6460073830b32db8bd50d1f0"%string);
    (333000, "b4ef852358df0ff76ed878704b823c82dc8799a83a3caa10874cf56a957b54d8"%string);
    (400000, "5ea6a74691c402be4f428954c00c9b9359a9a1f9afac1317e8115cf793efa039"%string);
    (410500, "7df88b7fd6db121d47571afbbee4cc83a32619d96588eb0de3b082c96b0aa163"%string);
    (425500, "a4e58148141c3389c9a6f25b100fa2c9db2528a83823bfd3cdf343a901fa509b"%string);
    (435000, "b224c2aa24abd65984003200516d3a7a6be511c4f858151e613a4d640dafec75"%string);
    (450555, "ffac1a65eb6e9d1e240d162a2f7a67f7a4a35a70548abd5e62dfd11cd378469a"%string);
    (465000, "0a4a9f3ed25ef43f85b95c34b1d11cdd895da8f90574b555a04a112e0f0004c2"%string);
    (469666, "b5381cf17128d24ce5f7468e3bcbc79c9b227facf13015dbfa825fd67e6ec026"%string);
    (475000, "a3c90ed7101d21fbe0b5fb8e7477ca71bcb165f4de7406ab400b990b334199f0"%string);
    (476483, "8d0f2022420c2d5dc0c3157cf82a0eab296f64bc2f012fe92581ed3e3e54e319"%string);
    (478778, "776ae73e23600e0495a9cdcf198095a614c98e1e9ea0d7d80921ffa2bb4709f0"%string);
    (478865, "d0351a92a966baa632f4983d5c0f54c1a3c6a52514770f872f890446ba000000"%string)
  ].

Definition init_default_checkpoints (this : checkpoints)
  (nettype : network_type) : bool * checkpoints :=
  match nettype with
  | TESTNET => (true, this)
  | STAGENET => (true, this)
  | MAINNET => add_checkpoints this default_checkpoints
  end.

(** The [for] loop of [load_checkpoints_from_json]. *)
Fixpoint load_hashlines (prev_max_height : N) (this : checkpoints)
  (lines : list t_hashline) : bool * checkpoints :=
  match lines with
  | [] => (true, this)
  | it :: rest =>
      let height := height it in
      if height <=? prev_max_height
      then load_hashlines prev_max_height this rest
      else
        let blockhash := hash it in
        ADD_CHECKPOINT this height blockhash
          (fun this => load_hashlines prev_max_height this rest)
  end.

Definition load_checkpoints_from_json (this : checkpoints)
  (json_hashfile : json_hashfile) : bool * checkpoints :=
  match json_hashfile with
  | file_not_found => (true, this)
  | file_malformed => (false, this)
  | file_parsed hashes =>
      let prev_max_height := get_max_height this in
      load_hashlines prev_max_height this (hashlines hashes)
  end.

(** The lines of the file that are not ignored, as (height, hash) pairs. *)
Definition fresh_hashlines (prev_max_height : N) (lines : list t_hashline)
  : list (N * string) :=
  map (fun it => (height it, hash it))
    (filter (fun it => negb (height it <=? prev_max_height)) lines).

(** The store invariant: both maps are in strictly increasing key order. *)
Definition well_formed (this : checkpoints) : bool :=
  StdMap.ordered (m_points this) && StdMap.ordered (m_difficulty_points this).

(** *** The merge of the specification

    The specification describes a mutating [merge]: every hash anchor of
    the other store is inserted through [insert], and the first conflict
    stops the merge and names the height.  These two definitions follow the
    specification's words; they are compared with [check_for_conflicts]
    below. *)
Definition insert_spec (this : checkpoints) (height : N) (h : crypto_hash)
  : bool * checkpoints :=
  match StdMap.find height (m_points this) with
  | Some stored =>
      if hash_eqb h stored then (true, this) else (false, this)
  | None => (true, set_m_points this (StdMap.assign height h (m_points this)))
  end.

Fixpoint merge_spec_loop (this : checkpoints) (pts : list (N * crypto_hash))
  : option N * checkpoints :=
  match pts with
  | [] => (None, this)
  | (k, h) :: rest =>
      let (r, this) := insert_spec this k h in
      if r then merge_spec_loop this rest else (Some k, this)
  end.

Definition merge_spec (this other : checkpoints) : option N * checkpoints :=
  merge_spec_loop this (m_points other).

End Checkpoints.

Arguments checkpoints {ext}.
Arguments new_checkpoints {ext}.

(** ** The DNS loader and the loader of both sources

    Two more collaborators from outside [checkpoints.cpp]:
    - [stream_uint64 s] is the extraction [ss >> height] of a [uint64_t]
      from a [std::stringstream] built over [s]: [Some height] when the
      stream is good afterwards, [None] when the extraction fails;
    - [load_txt_records_from_dns urls] is
      [tools::dns_utils::load_txt_records_from_dns(records, urls)]:
      [Some records] when the call returns [true], [None] when it returns
      [false]. *)
Class DnsExternals : Type := {
  stream_uint64 : string -> option N;
  load_txt_records_from_dns : list string -> option (list string)
}.

Section Loaders.
Context {ext : Externals} {dns_ext : DnsExternals}.

Definition dns_urls : list string := [].

Definition testnet_dns_urls : list string := [].

Definition stagenet_dns_urls : list string :=
  [ "stagenetpoints1.dinastycoin.com"%string;
    "stagenetpoints2.dinastycoin.com"%string;
    "stagenetpoints3.dinastycoin.com"%string;
    "stagenetpoints4.dinastycoin.com"%string ].

(** [record.find(":")]: the position of the first colon, [None] for
    [std::string::npos]. *)
Definition find_colon (record : string) : option nat :=
  index 0 ":" record.

(** [record.substr(pos + 1)]: from position [pos + 1] to the end. *)
Definition substr_from (record : string) (pos : nat) : string :=
  substring pos (String.length record - pos) record.

(** The [for] loop of [load_checkpoints_from_dns]; a [continue] goes on
    with the remaining records on the same object. *)
Fixpoint load_dns_records (this : checkpoints) (records : list string)
  : bool * checkpoints :=
  match records with
  | [] => (true, this)
  | record :: rest =>
      match find_colon record with
      | Some pos =>
          match stream_uint64 (substring 0 pos record) with
          | None => load_dns_records this rest
          | Some height =>
              let hashStr := substr_from record (pos + 1) in
              match hex_to_pod hashStr with
              | None => load_dns_records this rest
              | Some _ =>
                  ADD_CHECKPOINT this height hashStr
                    (fun this => load_dns_records this rest)
              end
          end
      | None => load_dns_records this rest
      end
  end.

(** [nettype == TESTNET ? testnet_dns_urls : nettype == STAGENET ?
    stagenet_dns_urls : dns_urls]. *)
Definition selected_dns_urls (nettype : network_type) : list string :=
  match nettype with
  | TESTNET => testnet_dns_urls
  | STAGENET => stagenet_dns_urls
  | MAINNET => dns_urls
  end.

Definition load_checkpoints_from_dns (this : checkpoints)
  (nettype : network_type) : bool * checkpoints :=
  match load_txt_records_from_dns (selected_dns_urls nettype) with
  | None => (true, this)
  | Some records => load_dns_records this records
  end.

(** [result &= load_checkpoints_from_dns(nettype)] evaluates its right-hand
    side whatever [result] is. *)
Definition load_new_checkpoints (this : checkpoints)
  (json_hashfile : json_hashfile) (nettype : network_type) (dns : bool)
  : bool * checkpoints :=
  let (result, this) := load_checkpoints_from_json this json_hashfile in
  if dns
  then
    let (r, this) := load_checkpoints_from_dns this nettype in
    (result && r, this)
  else (result, this).

(** What one DNS record hands to [ADD_CHECKPOINT]: the height and the hash
    string, when the record has a colon, a height that extracts and a hash
    string that decodes. *)
Definition dns_record (record : string) : option (N * string) :=
  match find_colon record with
  | Some pos =>
      match stream_uint64 (substring 0 pos record) with
      | Some height =>
          match hex_to_pod (substr_from record (pos + 1)) with
          | Some _ => Some (height, substr_from record (pos + 1))
          | None => None
          end
      | None => None
      end
  | None => None
  end.

(** The records of a DNS answer that reach [ADD_CHECKPOINT], in order. *)
Fixpoint dns_checkpoints (records : list string) : list (N * string) :=
  match records with
  | [] => []
  | record :: rest =>
      match dns_record record with
      | Some pt => pt :: dns_checkpoints rest
      | None => dns_checkpoints rest
      end
  end.

(** Every difficulty anchor sits at a height that has a hash anchor. *)
Definition difficulty_points_anchored (this : checkpoints) : Prop :=
  forall k d,
    StdMap.find k (m_difficulty_points this) = Some d ->
    exists h, StdMap.find k (m_points this) = Some h.

(** The two checks of [add_checkpoint], each as a function of what the map
    holds at the height: the value the call goes on to assign, or [None]
    when the string does not convert or differs from the anchor there. *)
Definition hash_accepted (stored : option crypto_hash) (hash_str : string)
  : option crypto_hash :=
  match hex_to_pod hash_str with
  | None => None
  | Some h =>
      match stored with
      | Some stored => if hash_eqb h stored then Some h else None
      | None => Some h
      end
  end.

Definition difficulty_accepted (stored : option difficulty_type)
  (difficulty_str : string) : option difficulty_type :=
  match difficulty_of_string difficulty_str with
  | None => None
  | Some d =>
      match stored with
      | Some stored => if difficulty_eqb d stored then Some d else None
      | None => Some d
      end
  end.

End Loaders.

(** ** An instance of the external collaborators

    Used to run the model on concrete inputs. *)
Module Instance.

(** Modelled from the spec: [epee::string_tools::hex_to_pod] is not under
    src/.  The spec speaks of "a hex-encoded fixed-length hash string":
    here a hash is the list of its 32 bytes, and a string decodes when it
    is 64 hexadecimal digits. *)
Definition hex_digit (c : ascii) : option N :=
  let n := N_of_ascii c in
  if (48 <=? n) && (n <=? 57) then Some (n - 48)
  else if (97 <=? n) && (n <=? 102) then Some (n - 87)
  else if (65 <=? n) && (n <=? 70) then Some (n - 55)
  else None.

Fixpoint hex_bytes (s : string) : option (list N) :=
  match s with
  | EmptyString => Some []
  | String a (String b rest) =>
      match hex_digit a, hex_digit b, hex_bytes rest with
      | Some x, Some y, Some l => Some (16 * x + y :: l)
      | _, _, _ => None
      end
  | String _ EmptyString => None
  end.

Definition hex_to_hash (s : string) : option (list N) :=
  match hex_bytes s with
  | Some l => if Nat.eqb (List.length l) 32 then Some l else None
  | None => None
  end.

(** Modelled from the spec: the difficulty type is "an arbitrary-precision
    difficulty value" built from a string by a constructor that is not
    under src/.  Here a difficulty is a natural number written in decimal
    digits; any other string is refused. *)
Fixpoint decimal_digits (acc : N) (s : string) : option N :=
  match s with
  | EmptyString => Some acc
  | String c rest =>
      let n := N_of_ascii c in
      if (48 <=? n) && (n <=? 57)
      then decimal_digits (10 * acc + (n - 48)) rest
      else None
  end.

Definition decimal_difficulty (s : string) : option N :=
  match s with
  | EmptyString => None
  | String _ _ => decimal_digits 0 s
  end.

#[export] Instance externals : Externals := {|
  crypto_hash := list N;
  crypto_hash_eq_dec := list_eq_dec N.eq_dec;
  difficulty_type := N;
  difficulty_eq_dec := N.eq_dec;
  hex_to_pod := hex_to_hash;
  difficulty_of_string := decimal_difficulty
|}.

(** The store after [init_default_checkpoints] on the main network. *)
Definition mainnet : checkpoints :=
  snd (init_default_checkpoints new_checkpoints MAINNET).

(** The hash strings of the compiled checkpoints at heights 100 and 500. *)
Definition hash_100 : string :=
  "b922e51c7cccba7f7fd12b395b942a6092566c47879862b127405dc16c3b415a".

Definition hash_500 : string :=
  "4161494672a7ef39e1a1c6d5e4b3c6e899b5a945cd1dd7239ad734189c663f29".

(** A store with checkpoints at heights 100 and 500 only, the first one
    with a difficulty anchor. *)
Definition two_points : checkpoints :=
  snd (add_checkpoint
         (snd (add_checkpoint new_checkpoints 500 hash_500 ""))
         100 hash_100 "7").

(** A second store: it agrees with [two_points] at height 100, disagrees
    at height 500 and has one more checkpoint at height 1000. *)
Definition other_points : checkpoints :=
  snd (add_checkpoints new_checkpoints
         [(100, hash_100); (500, hash_100); (1000, hash_500)]).

(** A store with the single checkpoint 1000. *)
Definition one_point : checkpoints :=
  snd (add_checkpoint new_checkpoints 1000 hash_500 "").

(** The two strings, decoded. *)
Definition pod_100 : list N :=
  Eval vm_compute in
    match hex_to_hash hash_100 with Some l => l | None => [] end.

Definition pod_500 : list N :=
  Eval vm_compute in
    match hex_to_hash hash_500 with Some l => l | None => [] end.

(** A file whose records are all at or below height 500; none of them could
    be inserted into [two_points]: the first conflicts with the anchor at
    100, the second does not decode. *)
Definition stale_file : t_hash_json :=
  {| hashlines :=
       [ {| height := 100; hash := hash_500 |};
         {| height := 500; hash := "not a hash" |} ] |}.

(** Modelled from the spec: a DNS record is "<decimal height>:<hex hash>"
    and the stream extraction is not under src/.  Here a height extracts
    when the text before the colon is decimal digits of a number below
    2^64. *)
Definition decimal_height (s : string) : option N :=
  match decimal_difficulty s with
  | Some n => if n <? 2 ^ 64 then Some n else None
  | None => None
  end.

(** A DNS answer for the stage network: a record for height 1000, one
    without a colon, one whose height does not extract, one whose hash does
    not decode, and a record for height 100. *)
Definition stagenet_records : list string :=
  [ String.append "1000:" hash_500;
    "no colon here"%string;
    String.append "x1:" hash_500;
    "2000:beef"%string;
    String.append "100:" hash_100 ].

#[export] Instance dns_externals : DnsExternals := {|
  stream_uint64 := decimal_height;
  load_txt_records_from_dns := fun urls =>
    match urls with
    | [] => None
    | _ :: _ => Some stagenet_records
    end
|}.

(** A file with two records above height 500 and one stale record. *)
Definition fresh_file : t_hash_json :=
  {| hashlines :=
       [ {| height := 1000; hash := hash_500 |};
         {| height := 100; hash := "stale" |};
         {| height := 2000; hash := hash_100 |} ] |}.

(** A store whose single checkpoint 1000 has the hash that [two_points] has
    at height 100. *)
Definition rival_point : checkpoints :=
  snd (add_checkpoint new_checkpoints 1000 hash_100 "").

(** The first record of [stagenet_records] and the first line of
    [fresh_file]. *)
Definition record_1000 : string := String.append "1000:" hash_500.

Definition line_1000 : t_hashline := {| height := 1000; hash := hash_500 |}.

(** A file of three records above height 500 whose second hash string does
    not decode, and its third line. *)
Definition line_3000 : t_hashline := {| height := 3000; hash := hash_100 |}.

Definition broken_file : t_hash_json :=
  {| hashlines :=
       [ {| height := 1000; hash := hash_500 |};
         {| height := 2000; hash := "zz" |};
         line_3000 ] |}.

(** A file whose second record repeats the height of the first with another
    hash. *)
Definition clashing_file : t_hash_json :=
  {| hashlines :=
       [ {| height := 1000; hash := hash_500 |};
         {| height := 1000; hash := hash_100 |} ] |}.

End Instance.

(** ** Facts about the ordered map *)
Section StdMapFacts.
Context {V : Type}.
Implicit Types (m : StdMap.t V) (k j : N) (v : V).

Lemma ordered_cons k v m :
  StdMap.ordered ((k, v) :: m) = true <->
  StdMap.ordered m = true /\ (forall k', In k' (StdMap.keys m) -> k < k').
Proof.
  revert k v. induction m as [|[k2 v2] m IH]; intros k v.
  - simpl. split; [intros _; split; [reflexivity | intros k' []] | reflexivity].
  - change (StdMap.ordered ((k, v) :: (k2, v2) :: m))
      with ((k <? k2) && StdMap.ordered ((k2, v2) :: m)).
    rewrite andb_true_iff, N.ltb_lt. split.
    + intros [Hlt Hord]. split; [exact Hord|].
      intros k' [<-|Hin]; [exact Hlt|].
      apply IH in Hord. destruct Hord as [_ Hall].
      specialize (Hall k' Hin). lia.
    + intros [Hord Hall]. split; [|exact Hord].
      apply Hall. left. reflexivity.
Qed.

Lemma find_None_iff k m :
  StdMap.find k m = None <-> ~ In k (StdMap.keys m).
Proof.
  induction m as [|[k' v'] m IH]; simpl.
  - split; [intros _ [] | reflexivity].
  - destruct (N.eqb_spec k k') as [->|Hne].
    + split; [discriminate | intros H; exfalso; apply H; left; reflexivity].
    + rewrite IH. split.
      * intros H [Heq|Hin]; [congruence | exact (H Hin)].
      * intros H Hin. apply H. right. exact Hin.
Qed.

Lemma find_Some_In k v m : StdMap.find k m = Some v -> In (k, v) m.
Proof.
  induction m as [|[k' v'] m IH]; simpl; [discriminate|].
  destruct (N.eqb_spec k k') as [->|Hne].
  - intros [= ->]. left. reflexivity.
  - intros H. right. exact (IH H).
Qed.

Lemma In_keys k v m : In (k, v) m -> In k (StdMap.keys m).
Proof. intros H. exact (in_map fst m (k, v) H). Qed.

Lemma In_find k v m :
  StdMap.ordered m = true -> In (k, v) m -> StdMap.find k m = Some v.
Proof.
  induction m as [|[k' v'] m IH]; [intros _ []|].
  intros Hord Hin. apply ordered_cons in Hord. destruct Hord as [Hord Hall].
  simpl in Hin |- *. destruct Hin as [Heq|Hin].
  - injection Heq as -> ->. rewrite N.eqb_refl. reflexivity.
  - pose proof (Hall k (In_keys k v m Hin)) as Hlt.
    destruct (N.eqb_spec k k') as [->|_]; [lia|].
    exact (IH Hord Hin).
Qed.

Lemma find_assign_eq k v m : StdMap.find k (StdMap.assign k v m) = Some v.
Proof.
  induction m as [|[k' v'] m IH]; simpl.
  - rewrite N.eqb_refl. reflexivity.
  - destruct (N.ltb_spec k k') as [Hlt|Hge]; simpl.
    + rewrite N.eqb_refl. reflexivity.
    + destruct (N.eqb_spec k k') as [->|Hne]; simpl.
      * rewrite N.eqb_refl. reflexivity.
      * destruct (N.eqb_spec k k') as [Heq|_]; [contradiction|exact IH].
Qed.

Lemma find_assign_neq k j v m :
  j <> k -> StdMap.find j (StdMap.assign k v m) = StdMap.find j m.
Proof.
  intros Hjk. induction m as [|[k' v'] m IH]; simpl.
  - destruct (N.eqb_spec j k); [contradiction|reflexivity].
  - destruct (N.ltb_spec k k') as [Hlt|Hge]; simpl.
    + destruct (N.eqb_spec j k); [contradiction|reflexivity].
    + destruct (N.eqb_spec k k') as [->|Hne]; simpl.
      * destruct (N.eqb_spec j k'); [contradiction|reflexivity].
      * rewrite IH. reflexivity.
Qed.

Lemma keys_assign k v m k' :
  In k' (StdMap.keys (StdMap.assign k v m)) <->
  k' = k \/ In k' (StdMap.keys m).
Proof.
  induction m as [|[k2 v2] m IH]; simpl.
  - intuition congruence.
  - destruct (N.ltb_spec k k2) as [Hlt|Hge]; simpl.
    + intuition congruence.
    + destruct (N.eqb_spec k k2) as [->|Hne]; simpl.
      * intuition congruence.
      * unfold StdMap.keys in IH. rewrite IH. intuition congruence.
Qed.

Lemma ordered_assign k v m :
  StdMap.ordered m = true -> StdMap.ordered (StdMap.assign k v m) = true.
Proof.
  induction m as [|[k2 v2] m IH]; intros Hord.
  - reflexivity.
  - pose proof Hord as Hord'.
    apply ordered_cons in Hord'. destruct Hord' as [Hm Hall].
    cbn [StdMap.assign].
    destruct (N.ltb_spec k k2) as [Hlt|Hge].
    + apply ordered_cons. split; [exact Hord|].
      intros k' [<-|Hin]; [exact Hlt|].
      specialize (Hall k' Hin). lia.
    + destruct (N.eqb_spec k k2) as [->|Hne].
      * apply ordered_cons. split; assumption.
      * apply ordered_cons. split; [exact (IH Hm)|].
        intros k' Hin. apply keys_assign in Hin.
        destruct Hin as [->|Hin]; [lia|exact (Hall k' Hin)].
Qed.

Lemma assign_same k v m :
  StdMap.ordered m = true -> StdMap.find k m = Some v ->
  StdMap.assign k v m = m.
Proof.
  induction m as [|[k2 v2] m IH]; [discriminate|].
  intros Hord Hfind.
  apply ordered_cons in Hord. destruct Hord as [Hm Hall].
  simpl in Hfind |- *.
  destruct (N.eqb_spec k k2) as [->|Hne].
  - injection Hfind as ->. rewrite N.ltb_irrefl. reflexivity.
  - destruct (N.ltb_spec k k2) as [Hlt|Hge].
    + apply find_Some_In, In_keys in Hfind.
      specialize (Hall k Hfind). lia.
    + rewrite (IH Hm Hfind). reflexivity.
Qed.

(** [upper_bound] finds the least key above [k]. *)
Lemma upper_bound_least k m :
  StdMap.ordered m = true ->
  (forall u, nth_error (StdMap.keys m) (StdMap.upper_bound k m) = Some u ->
     k < u /\ forall k', In k' (StdMap.keys m) -> k < k' -> u <= k') /\
  (nth_error (StdMap.keys m) (StdMap.upper_bound k m) = None ->
     forall k', In k' (StdMap.keys m) -> k' <= k).
Proof.
  induction m as [|[k0 v0] m IH]; intros Hord.
  - split; [discriminate | intros _ k' []].
  - apply ordered_cons in Hord. destruct Hord as [Hm Hall].
    specialize (IH Hm). destruct IH as [IHsome IHnone].
    cbn [StdMap.upper_bound StdMap.keys map fst].
    destruct (N.ltb_spec k k0) as [Hlt|Hge].
    + split; [|discriminate].
      intros u [= <-]. split; [exact Hlt|].
      intros k' [<-|Hin] _; [lia|].
      specialize (Hall k' Hin). lia.
    + cbn [nth_error]. split.
      * intros u Hu. destruct (IHsome u Hu) as [Hku Hleast].
        split; [exact Hku|].
        intros k' [<-|Hin] Hk'; [lia|exact (Hleast k' Hin Hk')].
      * intros Hnone k' [<-|Hin]; [exact Hge|exact (IHnone Hnone k' Hin)].
Qed.

(** Stepping back from [upper_bound] lands on the greatest key at or below
    [k], unless [upper_bound] is [begin]. *)
Lemma upper_bound_floor k m :
  StdMap.ordered m = true ->
  (StdMap.upper_bound k m = 0%nat /\
   forall k', In k' (StdMap.keys m) -> k < k') \/
  (StdMap.upper_bound k m <> 0%nat /\
   In (StdMap.first m (Nat.pred (StdMap.upper_bound k m))) (StdMap.keys m) /\
   StdMap.first m (Nat.pred (StdMap.upper_bound k m)) <= k /\
   forall k', In k' (StdMap.keys m) -> k' <= k ->
     k' <= StdMap.first m (Nat.pred (StdMap.upper_bound k m))).
Proof.
  induction m as [|[k0 v0] m IH]; intros Hord.
  - left. split; [reflexivity | intros k' []].
  - apply ordered_cons in Hord. destruct Hord as [Hm Hall].
    specialize (IH Hm).
    unfold StdMap.first, StdMap.keys in *.
    cbn [StdMap.upper_bound map fst] in *.
    destruct (N.ltb_spec k k0) as [Hlt|Hge].
    + left. split; [reflexivity|].
      intros k' [<-|Hin]; [exact Hlt|].
      specialize (Hall k' Hin). lia.
    + right. split; [discriminate|]. cbn [Nat.pred].
      destruct IH as [[Hub Habove]|(Hub & Hin & Hle & Hmax)].
      * rewrite Hub. cbn [nth].
        split; [left; reflexivity|]. split; [exact Hge|].
        intros k' [<-|Hin'] Hk'; [lia|].
        specialize (Habove k' Hin'). lia.
      * destruct (StdMap.upper_bound k m) as [|i]; [contradiction|].
        cbn [Nat.pred nth] in *.
        split; [right; exact Hin|]. split; [exact Hle|].
        intros k' [<-|Hin'] Hk'; [|exact (Hmax k' Hin' Hk')].
        specialize (Hall _ Hin). lia.
Qed.

(** The key before [end_] is the highest key. *)
Lemma last_key_max m :
  StdMap.ordered m = true -> m <> [] ->
  In (StdMap.first m (Nat.pred (StdMap.end_ m))) (StdMap.keys m) /\
  forall k, In k (StdMap.keys m) ->
    k <= StdMap.first m (Nat.pred (StdMap.end_ m)).
Proof.
  induction m as [|[k0 v0] m IH]; intros Hord Hne; [contradiction|].
  apply ordered_cons in Hord. destruct Hord as [Hm Hall].
  unfold StdMap.first, StdMap.end_, StdMap.keys in *.
  cbn [map fst List.length Nat.pred] in *.
  destruct m as [|[k1 v1] m].
  - cbn. split; [left; reflexivity|].
    intros k [<-|[]]. lia.
  - assert (Hne1 : (k1, v1) :: m <> []) by discriminate.
    destruct (IH Hm Hne1) as [Hin Hmax].
    cbn [List.length Nat.pred nth map fst] in *.
    split; [right; exact Hin|].
    intros k [<-|Hk]; [|exact (Hmax k Hk)].
    specialize (Hall _ Hin). lia.
Qed.

End StdMapFacts.

(** ** Facts about the checkpoint store *)
Section CheckpointFacts.
Context {ext : Externals}.
Implicit Types (this other : checkpoints) (h stored : crypto_hash).

Lemma hash_eqb_true (a b : crypto_hash) : hash_eqb a b = true <-> a = b.
Proof.
  unfold hash_eqb. destruct (crypto_hash_eq_dec a b); split; congruence.
Qed.

Lemma hash_eqb_false (a b : crypto_hash) : hash_eqb a b = false <-> a <> b.
Proof.
  unfold hash_eqb. destruct (crypto_hash_eq_dec a b); split; congruence.
Qed.

Lemma difficulty_eqb_false (a b : difficulty_type) :
  difficulty_eqb a b = false <-> a <> b.
Proof.
  unfold difficulty_eqb. destruct (difficulty_eq_dec a b); split; congruence.
Qed.

Lemma set_m_points_same this : set_m_points this (m_points this) = this.
Proof. destruct this. reflexivity. Qed.

(** The hash map after [add_checkpoint] is either the old one or, when the
    hash decodes and agrees with the anchor already there if any, the old
    one with the decoded hash assigned at [height]. *)
Lemma add_checkpoint_m_points this height hash_str difficulty_str :
  m_points (snd (add_checkpoint this height hash_str difficulty_str))
    = m_points this \/
  exists h, hex_to_pod hash_str = Some h /\
    (forall stored,
       StdMap.find height (m_points this) = Some stored -> h = stored) /\
    m_points (snd (add_checkpoint this height hash_str difficulty_str))
      = StdMap.assign height h (m_points this).
Proof.
  unfold add_checkpoint, CHECK_AND_ASSERT_MES.
  destruct (hex_to_pod hash_str) as [h|]; [|left; reflexivity].
  destruct (StdMap.find height (m_points this)) as [stored|] eqn:Ef.
  - destruct (hash_eqb h stored) eqn:Eh; [|left; reflexivity].
    apply hash_eqb_true in Eh. right. exists h.
    split; [reflexivity|]. split; [congruence|].
    destruct difficulty_str; [reflexivity|].
    destruct (difficulty_of_string _) as [d|]; [|reflexivity].
    cbn [m_difficulty_points set_m_points].
    destruct (match StdMap.find height (m_difficulty_points this) with
              | Some stored0 => difficulty_eqb d stored0
              | None => true
              end); reflexivity.
  - right. exists h. split; [reflexivity|]. split; [discriminate|].
    destruct difficulty_str; [reflexivity|].
    destruct (difficulty_of_string _) as [d|]; [|reflexivity].
    cbn [m_difficulty_points set_m_points].
    destruct (match StdMap.find height (m_difficulty_points this) with
              | Some stored0 => difficulty_eqb d stored0
              | None => true
              end); reflexivity.
Qed.

Lemma add_checkpoint_m_difficulty_points this height hash_str difficulty_str :
  m_difficulty_points (snd (add_checkpoint this height hash_str difficulty_str))
    = m_difficulty_points this \/
  exists d, difficulty_of_string difficulty_str = Some d /\
    m_difficulty_points (snd (add_checkpoint this height hash_str difficulty_str))
      = StdMap.assign height d (m_difficulty_points this).
Proof.
  unfold add_checkpoint, CHECK_AND_ASSERT_MES.
  destruct (hex_to_pod hash_str) as [h|]; [|left; reflexivity].
  destruct (match StdMap.find height (m_points this) with
            | Some stored => hash_eqb h stored
            | None => true
            end); [|left; reflexivity].
  destruct difficulty_str; [left; reflexivity|].
  destruct (difficulty_of_string _) as [d|]; [|left; reflexivity].
  cbn [m_difficulty_points set_m_points].
  destruct (match StdMap.find height (m_difficulty_points this) with
            | Some stored => difficulty_eqb d stored
            | None => true
            end); [|left; reflexivity].
  right. exists d. split; reflexivity.
Qed.

(** [add_checkpoint] keeps both maps in key order, whatever it returns. *)
Lemma add_checkpoint_well_formed this height hash_str difficulty_str :
  well_formed this = true ->
  well_formed (snd (add_checkpoint this height hash_str difficulty_str)) = true.
Proof.
  unfold well_formed. rewrite !andb_true_iff. intros [Hp Hd]. split.
  - destruct (add_checkpoint_m_points this height hash_str difficulty_str)
      as [->|(h & _ & _ & ->)]; [exact Hp|apply ordered_assign; exact Hp].
  - destruct (add_checkpoint_m_difficulty_points this height hash_str
                difficulty_str)
      as [->|(d & _ & ->)]; [exact Hd|apply ordered_assign; exact Hd].
Qed.

Lemma new_checkpoints_well_formed : well_formed new_checkpoints = true.
Proof. reflexivity. Qed.

Lemma add_checkpoints_well_formed pts :
  forall this,
    well_formed this = true ->
    well_formed (snd (add_checkpoints this pts)) = true.
Proof.
  induction pts as [|[k hash_str] rest IH]; intros this Hwf; [exact Hwf|].
  cbn [add_checkpoints]. unfold ADD_CHECKPOINT.
  pose proof (add_checkpoint_well_formed this k hash_str "" Hwf) as Hwf'.
  destruct (add_checkpoint this k hash_str "") as [r this'].
  destruct r; cbn [CHECK_AND_ASSERT_MES]; [apply IH|]; exact Hwf'.
Qed.

(** Accepted hash anchors are never removed or changed. *)
Lemma add_checkpoint_keeps_anchors this height hash_str difficulty_str k stored :
  StdMap.find k (m_points this) = Some stored ->
  StdMap.find k
    (m_points (snd (add_checkpoint this height hash_str difficulty_str)))
    = Some stored.
Proof.
  intros Hk.
  destruct (add_checkpoint_m_points this height hash_str difficulty_str)
    as [->|(h & _ & Hagree & ->)]; [exact Hk|].
  destruct (N.eq_dec k height) as [->|Hne].
  - rewrite (Hagree stored Hk). apply find_assign_eq.
  - rewrite find_assign_neq by exact Hne. exact Hk.
Qed.

Lemma load_hashlines_fresh prev_max_height lines :
  forall this,
    load_hashlines prev_max_height this lines
    = add_checkpoints this (fresh_hashlines prev_max_height lines).
Proof.
  unfold fresh_hashlines.
  induction lines as [|it rest IH]; intros this; [reflexivity|].
  cbn [load_hashlines filter].
  destruct (height it <=? prev_max_height); cbn [negb].
  - apply IH.
  - cbn [map add_checkpoints]. unfold ADD_CHECKPOINT.
    destruct (add_checkpoint this (height it) (hash it) "") as [r this'].
    destruct r; cbn [CHECK_AND_ASSERT_MES]; [apply IH|reflexivity].
Qed.

Lemma fresh_hashlines_all_stale prev_max_height lines :
  (forall it, In it lines -> height it <= prev_max_height) ->
  fresh_hashlines prev_max_height lines = [].
Proof.
  unfold fresh_hashlines.
  induction lines as [|it rest IH]; intros Hall; [reflexivity|].
  cbn [filter].
  destruct (N.leb_spec (height it) prev_max_height) as [_|Hgt].
  - cbn [negb]. apply IH. intros it' Hin. apply Hall. right. exact Hin.
  - specialize (Hall it (or_introl eq_refl)). lia.
Qed.

Lemma check_for_conflicts_loop_false this pts :
  check_for_conflicts_loop this pts = false <->
  exists k h stored,
    In (k, h) pts /\ StdMap.find k (m_points this) = Some stored /\
    h <> stored.
Proof.
  induction pts as [|[k h] rest IH]; cbn [check_for_conflicts_loop fst snd].
  - split; [discriminate | intros (? & ? & ? & [] & _)].
  - unfold CHECK_AND_ASSERT_MES.
    destruct (StdMap.find k (m_points this)) as [stored|] eqn:Ek.
    + destruct (hash_eqb h stored) eqn:Eh.
      * apply hash_eqb_true in Eh. subst stored. rewrite IH. split.
        -- intros (k' & h' & s' & Hin & Hf & Hd).
           exists k', h', s'. split; [right; exact Hin|]. split; assumption.
        -- intros (k' & h' & s' & [Heq|Hin] & Hf & Hd).
           ++ injection Heq as <- <-. congruence.
           ++ exists k', h', s'. repeat split; assumption.
      * apply hash_eqb_false in Eh. split; [intros _|reflexivity].
        exists k, h, stored. split; [left; reflexivity|]. split; assumption.
    + rewrite IH. split.
      * intros (k' & h' & s' & Hin & Hf & Hd).
        exists k', h', s'. split; [right; exact Hin|]. split; assumption.
      * intros (k' & h' & s' & [Heq|Hin] & Hf & Hd).
        -- injection Heq as <- <-. congruence.
        -- exists k', h', s'. repeat split; assumption.
Qed.

(** ** The insertion gate *)

(** C10: when the hash string does not decode, [add_checkpoint], which does
    the hex decoding itself, returns [false] and the object is left as it
    was: neither the hash map nor the difficulty map gains or changes an
    entry. *)
Theorem add_checkpoint_decode_failure this height hash_str difficulty_str :
  hex_to_pod hash_str = None ->
  add_checkpoint this height hash_str difficulty_str = (false, this).
Proof.
  intros Hdec. unfold add_checkpoint. rewrite Hdec. reflexivity.
Qed.

(** C3: inserting, at a height that already holds a hash anchor, a hash
    different from the stored one returns [false] and leaves both maps as
    they were; the height still answers with the original hash. *)
Theorem add_checkpoint_hash_conflict
  this height hash_str difficulty_str h stored :
  StdMap.find height (m_points this) = Some stored ->
  hex_to_pod hash_str = Some h ->
  h <> stored ->
  add_checkpoint this height hash_str difficulty_str = (false, this) /\
  StdMap.find height
    (m_points (snd (add_checkpoint this height hash_str difficulty_str)))
    = Some stored /\
  check_block (snd (add_checkpoint this height hash_str difficulty_str))
    height stored = (true, true).
Proof.
  intros Hfind Hdec Hne.
  assert (E : add_checkpoint this height hash_str difficulty_str
              = (false, this)).
  { unfold add_checkpoint. rewrite Hdec, Hfind.
    apply hash_eqb_false in Hne. rewrite Hne. reflexivity. }
  rewrite E. cbn [snd]. split; [reflexivity|]. split; [exact Hfind|].
  unfold check_block. rewrite Hfind.
  rewrite (proj2 (hash_eqb_true stored stored) eq_refl). reflexivity.
Qed.

(** C9: inserting again a (height, hash) pair the store already holds
    returns [true] and leaves both maps as they were. *)
Theorem add_checkpoint_idempotent this height hash_str h :
  StdMap.ordered (m_points this) = true ->
  hex_to_pod hash_str = Some h ->
  StdMap.find height (m_points this) = Some h ->
  add_checkpoint this height hash_str "" = (true, this).
Proof.
  intros Hord Hdec Hfind.
  unfold add_checkpoint. rewrite Hdec, Hfind.
  rewrite (proj2 (hash_eqb_true h h) eq_refl).
  cbn [CHECK_AND_ASSERT_MES].
  rewrite (assign_same height h (m_points this) Hord Hfind).
  rewrite set_m_points_same. reflexivity.
Qed.

(** C5: a difficulty supplied at a height whose difficulty anchor differs
    makes the call return [false] and keeps the difficulty map as it was.
    The difficulty is looked at after, and apart from, the hash: a decoded
    hash that passed its own check has been assigned to the hash map by
    then and stays there, and a decoded hash that did not pass leaves the
    anchor already there, so the height holds a hash anchor after the
    call. *)
Theorem add_checkpoint_difficulty_conflict
  this height hash_str difficulty_str d stored_d :
  difficulty_str <> ""%string ->
  difficulty_of_string difficulty_str = Some d ->
  StdMap.find height (m_difficulty_points this) = Some stored_d ->
  d <> stored_d ->
  fst (add_checkpoint this height hash_str difficulty_str) = false /\
  m_difficulty_points (snd (add_checkpoint this height hash_str difficulty_str))
    = m_difficulty_points this /\
  (forall h,
     hex_to_pod hash_str = Some h ->
     ((forall stored, StdMap.find height (m_points this) = Some stored ->
         h = stored) ->
      m_points (snd (add_checkpoint this height hash_str difficulty_str))
        = StdMap.assign height h (m_points this) /\
      StdMap.find height
        (m_points (snd (add_checkpoint this height hash_str difficulty_str)))
        = Some h) /\
     (exists h0,
        StdMap.find height
          (m_points (snd (add_checkpoint this height hash_str difficulty_str)))
        = Some h0)).
Proof.
  intros Hne Hd Hfind Hdiff.
  apply difficulty_eqb_false in Hdiff.
  unfold add_checkpoint, CHECK_AND_ASSERT_MES.
  destruct (hex_to_pod hash_str) as [h|].
  2:{ split; [reflexivity|]. split; [reflexivity|]. discriminate. }
  destruct difficulty_str as [|c s]; [contradiction|].
  rewrite Hd. cbn [m_difficulty_points set_m_points].
  rewrite Hfind, Hdiff.
  destruct (StdMap.find height (m_points this)) as [stored|] eqn:Ef.
  - destruct (hash_eqb h stored) eqn:Eh; cbn [fst snd m_points
      m_difficulty_points set_m_points].
    + split; [reflexivity|]. split; [reflexivity|].
      intros h' [= <-]. split.
      * intros _. split; [reflexivity|apply find_assign_eq].
      * exists h. apply find_assign_eq.
    + apply hash_eqb_false in Eh.
      split; [reflexivity|]. split; [reflexivity|].
      intros h' [= <-]. split.
      * intros Hagree. elim Eh. apply Hagree. reflexivity.
      * exists stored. exact Ef.
  - cbn [fst snd m_points m_difficulty_points set_m_points].
    split; [reflexivity|]. split; [reflexivity|].
    intros h' [= <-]. split.
    + intros _. split; [reflexivity|apply find_assign_eq].
    + exists h. apply find_assign_eq.
Qed.

(** ** The point queries *)

(** C6: [check_block] at a height with no hash anchor returns the
    pass-through result, [true] with [is_a_checkpoint] false, whatever the
    candidate hash; at a registered height it sets [is_a_checkpoint] and
    returns [true] exactly when the stored hash is the candidate. *)
Theorem check_block_three_way this height h :
  (~ In height (StdMap.keys (m_points this)) ->
   check_block this height h = (true, false)) /\
  (forall stored,
     StdMap.find height (m_points this) = Some stored ->
     (stored = h -> check_block this height h = (true, true)) /\
     (stored <> h -> check_block this height h = (false, true)) /\
     (fst (check_block this height h) = true <-> stored = h) /\
     snd (check_block this height h) = true).
Proof.
  unfold check_block. split.
  - intros Hnot. apply find_None_iff in Hnot. rewrite Hnot. reflexivity.
  - intros stored Hfind. rewrite Hfind.
    destruct (hash_eqb stored h) eqn:E.
    + apply hash_eqb_true in E. repeat split; try reflexivity; try congruence.
    + apply hash_eqb_false in E.
      repeat split; try reflexivity; try congruence; try discriminate.
Qed.

(** C7: [is_in_checkpoint_zone] holds exactly when the hash map is not
    empty and the height is at most [get_max_height], which is the highest
    key of the hash map, and 0 on an empty store; on an empty store
    [is_in_checkpoint_zone] is false at every height. *)
Theorem is_in_checkpoint_zone_iff this height :
  StdMap.ordered (m_points this) = true ->
  (is_in_checkpoint_zone this height = true <->
   m_points this <> [] /\ height <= get_max_height this) /\
  (m_points this = [] ->
   get_max_height this = 0 /\ is_in_checkpoint_zone this height = false) /\
  (m_points this <> [] ->
   In (get_max_height this) (StdMap.keys (m_points this)) /\
   forall k, In k (StdMap.keys (m_points this)) -> k <= get_max_height this).
Proof.
  intros Hord. unfold is_in_checkpoint_zone, get_max_height.
  destruct (m_points this) as [|p m] eqn:Em.
  - cbn. split; [|split].
    + split; [discriminate | intros [Hne _]; contradiction].
    + intros _. split; reflexivity.
    + intros Hne. contradiction.
  - cbn [StdMap.empty negb andb]. split; [|split].
    + rewrite N.leb_le. split; [intros H; split; [discriminate|exact H]|].
      intros [_ H]. exact H.
    + discriminate.
    + intros Hne. exact (last_key_max (p :: m) Hord Hne).
Qed.

(** ** The reorganisation gate *)

(** C4: [is_alternative_block_allowed] is false whenever the block height
    is 0; and on a store whose checkpoint heights are exactly 100 and 500
    it is true for chain height 50 and block height 10, false for 600 and
    90, true for 600 and 501. *)
Theorem is_alternative_block_allowed_examples :
  (forall this blockchain_height,
     is_alternative_block_allowed this blockchain_height 0 = false) /\
  (forall this,
     StdMap.keys (m_points this) = [100; 500] ->
     is_alternative_block_allowed this 50 10 = true /\
     is_alternative_block_allowed this 600 90 = false /\
     is_alternative_block_allowed this 600 501 = true).
Proof.
  split.
  - intros this blockchain_height. reflexivity.
  - intros [m d]. cbn [m_points].
    destruct m as [|[k1 v1] [|[k2 v2] [|p m]]]; try discriminate.
    intros [= -> ->]. repeat split; reflexivity.
Qed.

(** C1, amended: for a block height above 0, [upper_bound] finds the least
    checkpoint height strictly greater than the chain height.  When the
    store has no checkpoint at or below the chain height (it is empty, or
    the chain height is below the very first checkpoint) the answer is
    [true].  Otherwise, also when no checkpoint lies above the chain
    height, the answer is [true] exactly when the block height is strictly
    greater than the nearest checkpoint height at or below the chain
    height. *)
Theorem is_alternative_block_allowed_boundary
  this blockchain_height block_height :
  StdMap.ordered (m_points this) = true ->
  0 < block_height ->
  (forall u,
     nth_error (StdMap.keys (m_points this))
       (StdMap.upper_bound blockchain_height (m_points this)) = Some u ->
     blockchain_height < u /\
     forall k, In k (StdMap.keys (m_points this)) ->
       blockchain_height < k -> u <= k) /\
  ((forall k, In k (StdMap.keys (m_points this)) -> blockchain_height < k) ->
   is_alternative_block_allowed this blockchain_height block_height = true) /\
  (forall c,
     In c (StdMap.keys (m_points this)) ->
     c <= blockchain_height ->
     (forall k, In k (StdMap.keys (m_points this)) ->
        k <= blockchain_height -> k <= c) ->
     is_alternative_block_allowed this blockchain_height block_height
     = (c <? block_height)).
Proof.
  intros Hord Hpos.
  split; [exact (proj1 (upper_bound_least blockchain_height _ Hord))|].
  unfold is_alternative_block_allowed, StdMap.begin.
  destruct (N.eqb_spec 0 block_height) as [E|_]; [lia|].
  destruct (upper_bound_floor blockchain_height _ Hord)
    as [[Hub Habove]|(Hub & Hin & Hle & Hmax)].
  - rewrite Hub. cbn [Nat.eqb]. split; [reflexivity|].
    intros c Hc Hcle _. specialize (Habove c Hc). lia.
  - apply Nat.eqb_neq in Hub. rewrite Hub. split.
    + intros Habove. specialize (Habove _ Hin). lia.
    + intros c Hc Hcle Hcmax.
      specialize (Hmax c Hc Hcle). specialize (Hcmax _ Hin Hle).
      replace c with
        (StdMap.first (m_points this)
           (Nat.pred (StdMap.upper_bound blockchain_height (m_points this))))
        by lia.
      reflexivity.
Qed.

(** ** Comparing two stores *)

(** C2, amended: [check_for_conflicts] only reads.  It visits the hash
    anchors of the other store in ascending height order, inserts none of
    them, and returns [false] at the first height that both stores hold
    with different hashes, [true] when there is no such height; the result
    is a [bool] and does not name the height.  So when two stores share one
    agreeing and one disagreeing height the result is [false], and this
    store keeps its own hash at both heights. *)
Theorem check_for_conflicts_iff this other :
  (check_for_conflicts this other = false <->
   exists k h stored,
     In (k, h) (m_points other) /\
     StdMap.find k (m_points this) = Some stored /\ h <> stored) /\
  (check_for_conflicts this other = true <->
   forall k h stored,
     In (k, h) (m_points other) ->
     StdMap.find k (m_points this) = Some stored -> h = stored).
Proof.
  unfold check_for_conflicts, get_points.
  pose proof (check_for_conflicts_loop_false this (m_points other)) as Hf.
  split; [exact Hf|].
  destruct (check_for_conflicts_loop this (m_points other)).
  - split; [|reflexivity]. intros _ k h stored Hin Hfind.
    destruct (crypto_hash_eq_dec h stored) as [E|E]; [exact E|].
    assert (true = false); [|discriminate].
    apply Hf. exists k, h, stored. repeat split; assumption.
  - split; [discriminate|]. intros Hall.
    destruct (proj1 Hf eq_refl) as (k & h & stored & Hin & Hfind & Hne).
    elim Hne. exact (Hall k h stored Hin Hfind).
Qed.

End CheckpointFacts.

(** ** The model on concrete inputs *)
Section Runs.
Import Instance.

(** The compiled checkpoints load without a conflict; the highest one is
    at height 478865. *)
Example init_default_checkpoints_mainnet :
  fst (init_default_checkpoints new_checkpoints MAINNET) = true /\
  well_formed mainnet = true /\
  List.length (m_points mainnet) = 39%nat /\
  get_max_height mainnet = 478865.
Proof. vm_compute. repeat split; reflexivity. Qed.

Example two_points_contents :
  m_points two_points = [(100, pod_100); (500, pod_500)] /\
  m_difficulty_points two_points = [(100, 7)].
Proof. vm_compute. split; reflexivity. Qed.

(** C10 at a string that is not hexadecimal. *)
Lemma add_checkpoint_decode_failure_run :
  add_checkpoint two_points 7 "xyz" "9" = (false, two_points).
Proof.
  apply (add_checkpoint_decode_failure two_points 7 "xyz" "9").
  reflexivity.
Defined.

(** C3 at height 500 of [two_points], offered the hash of height 100. *)
Lemma add_checkpoint_hash_conflict_run :
  add_checkpoint two_points 500 hash_100 "" = (false, two_points) /\
  StdMap.find 500
    (m_points (snd (add_checkpoint two_points 500 hash_100 ""))) = Some pod_500 /\
  check_block (snd (add_checkpoint two_points 500 hash_100 "")) 500 pod_500
    = (true, true).
Proof.
  apply (add_checkpoint_hash_conflict two_points 500 hash_100 "" pod_100 pod_500).
  - vm_compute. reflexivity.
  - vm_compute. reflexivity.
  - vm_compute. intros H. discriminate H.
Defined.

(** C9 at height 500 of [two_points]. *)
Lemma add_checkpoint_idempotent_run :
  add_checkpoint two_points 500 hash_500 "" = (true, two_points).
Proof.
  apply (add_checkpoint_idempotent two_points 500 hash_500 pod_500).
  - vm_compute. reflexivity.
  - vm_compute. reflexivity.
  - vm_compute. reflexivity.
Defined.

(** C5 at height 100 of [two_points], whose difficulty anchor is 7, offered
    the same hash with difficulty 8. *)
Lemma add_checkpoint_difficulty_conflict_run :
  fst (add_checkpoint two_points 100 hash_100 "8") = false /\
  m_difficulty_points (snd (add_checkpoint two_points 100 hash_100 "8"))
    = [(100, 7)] /\
  StdMap.find 100 (m_points (snd (add_checkpoint two_points 100 hash_100 "8")))
    = Some pod_100.
Proof.
  destruct (add_checkpoint_difficulty_conflict
              two_points 100 hash_100 "8" 8 7)
    as (Hr & Hd & Hh).
  - intros H. discriminate H.
  - vm_compute. reflexivity.
  - vm_compute. reflexivity.
  - intros H. discriminate H.
  - split; [exact Hr|]. split; [exact Hd|].
    apply (Hh pod_100); [vm_compute; reflexivity|].
    intros stored Hs. vm_compute in Hs.
    injection Hs as <-. reflexivity.
Defined.

(** C7 at the highest checkpoint of [two_points]. *)
Lemma is_in_checkpoint_zone_run :
  is_in_checkpoint_zone two_points 500 = true /\
  is_in_checkpoint_zone two_points 501 = false /\
  get_max_height two_points = 500.
Proof.
  destruct (is_in_checkpoint_zone_iff two_points 500) as (Hz & _ & _).
  - vm_compute. reflexivity.
  - split; [|split; vm_compute; reflexivity].
    apply Hz. split; [intros H; discriminate H|].
    vm_compute. intros H. discriminate H.
Defined.

(** C6 on [two_points]: a height between the checkpoints, and height 100
    with the right and with a wrong hash. *)
Lemma check_block_run :
  check_block two_points 250 pod_100 = (true, false) /\
  check_block two_points 100 pod_100 = (true, true) /\
  check_block two_points 100 pod_500 = (false, true).
Proof.
  split; [|split].
  - apply (check_block_three_way two_points 250 pod_100).
    vm_compute. intros [H|[H|[]]]; discriminate H.
  - apply (proj2 (check_block_three_way two_points 100 pod_100) pod_100).
    + vm_compute. reflexivity.
    + reflexivity.
  - apply (proj2 (check_block_three_way two_points 100 pod_500) pod_100).
    + vm_compute. reflexivity.
    + vm_compute. intros H. discriminate H.
Defined.

(** C4 on [two_points]. *)
Lemma is_alternative_block_allowed_examples_run :
  is_alternative_block_allowed two_points 0 0 = false /\
  is_alternative_block_allowed two_points 50 10 = true /\
  is_alternative_block_allowed two_points 600 90 = false /\
  is_alternative_block_allowed two_points 600 501 = true.
Proof.
  split.
  - apply (proj1 is_alternative_block_allowed_examples).
  - apply (proj2 is_alternative_block_allowed_examples).
    vm_compute. reflexivity.
Defined.

(** C1, amended, on [two_points] with the chain above the last checkpoint:
    the nearest checkpoint at or below 600 is 500. *)
Lemma is_alternative_block_allowed_boundary_run :
  is_alternative_block_allowed two_points 600 501 = (500 <? 501) /\
  is_alternative_block_allowed two_points 600 500 = (500 <? 500) /\
  is_alternative_block_allowed two_points 99 1 = true.
Proof.
  assert (Hfloor : forall k, In k (StdMap.keys (m_points two_points)) ->
                     k <= 600 -> k <= 500)
    by (intros k Hin _; vm_compute in Hin; destruct Hin as [<-|[<-|[]]]; lia).
  split; [|split].
  - apply (is_alternative_block_allowed_boundary two_points 600 501).
    + vm_compute. reflexivity.
    + lia.
    + vm_compute. right. left. reflexivity.
    + lia.
    + exact Hfloor.
  - apply (is_alternative_block_allowed_boundary two_points 600 500).
    + vm_compute. reflexivity.
    + lia.
    + vm_compute. right. left. reflexivity.
    + lia.
    + exact Hfloor.
  - apply (is_alternative_block_allowed_boundary two_points 99 1).
    + vm_compute. reflexivity.
    + lia.
    + intros k Hin. vm_compute in Hin. destruct Hin as [<-|[<-|[]]]; lia.
Defined.

(** C1 as stated fails on [two_points] at chain height 600 and block height
    90: the block height is above 0 and no checkpoint is strictly greater
    than 600, yet the answer is [false]. *)
Lemma is_alternative_block_allowed_past_last_checkpoint :
  0 < 90 /\
  (forall k, In k (StdMap.keys (m_points two_points)) -> k <= 600) /\
  is_alternative_block_allowed two_points 600 90 = false.
Proof.
  split; [lia|]. split; [|vm_compute; reflexivity].
  intros k Hin. vm_compute in Hin. destruct Hin as [<-|[<-|[]]]; lia.
Qed.

(** C2 on [two_points] and [other_points], which agree at height 100 and
    disagree at height 500. *)
Lemma check_for_conflicts_run :
  check_for_conflicts two_points other_points = false /\
  check_for_conflicts one_point two_points = true.
Proof.
  split.
  - apply (proj1 (check_for_conflicts_iff two_points other_points)).
    exists 500, pod_100, pod_500. split; [|split].
    + vm_compute. right. left. reflexivity.
    + vm_compute. reflexivity.
    + vm_compute. intros H. discriminate H.
  - apply (proj2 (check_for_conflicts_iff one_point two_points)).
    intros k h stored [Heq|[Heq|[]]] Hfind;
      injection Heq as <- <-; vm_compute in Hfind; discriminate Hfind.
Defined.

(** C2 as stated fails on [one_point] and [two_points]: the merge of the
    specification would insert the anchors 100 and 500 into the first
    store, while [check_for_conflicts] answers [true] and the first store,
    which it cannot change, still has its single anchor 1000. *)
Lemma check_for_conflicts_is_not_merge :
  check_for_conflicts one_point two_points = true /\
  StdMap.keys (m_points one_point) = [1000] /\
  StdMap.find 100 (m_points one_point) = None /\
  fst (merge_spec one_point two_points) = None /\
  StdMap.keys (m_points (snd (merge_spec one_point two_points)))
    = [100; 500; 1000] /\
  StdMap.find 100 (m_points (snd (merge_spec one_point two_points)))
    = Some pod_100 /\
  snd (merge_spec one_point two_points) <> one_point.
Proof.
  repeat split; try (vm_compute; reflexivity).
  intros H. apply (f_equal (fun c => List.length (m_points c))) in H.
  vm_compute in H. discriminate H.
Qed.

End Runs.

(** ** More facts about the ordered map *)
Section StdMapMoreFacts.
Context {V : Type}.
Implicit Types (m : StdMap.t V) (k j : N) (v : V).

Lemma assign_not_empty k v m : StdMap.assign k v m <> [].
Proof.
  destruct m as [|[k' v'] m]; cbn [StdMap.assign]; [discriminate|].
  destruct (k <? k'); [discriminate|]. destruct (k =? k'); discriminate.
Qed.

(** Assignments under different keys can be swapped. *)
Lemma assign_comm k1 v1 k2 v2 m :
  k1 <> k2 ->
  StdMap.assign k1 v1 (StdMap.assign k2 v2 m)
  = StdMap.assign k2 v2 (StdMap.assign k1 v1 m).
Proof.
  intros Hne. induction m as [|[k0 v0] m IH].
  - cbn [StdMap.assign].
    destruct (N.ltb_spec k1 k2), (N.ltb_spec k2 k1),
      (N.eqb_spec k1 k2), (N.eqb_spec k2 k1);
      try lia; try congruence; reflexivity.
  - cbn [StdMap.assign].
    destruct (N.ltb_spec k1 k0), (N.ltb_spec k2 k0),
      (N.eqb_spec k1 k0), (N.eqb_spec k2 k0);
      try lia; try congruence; cbn [StdMap.assign];
      repeat match goal with
        | |- context [N.ltb ?a ?b] => destruct (N.ltb_spec a b); try lia
        | |- context [N.eqb ?a ?b] =>
            destruct (N.eqb_spec a b); try lia; try congruence
        end;
      try reflexivity.
Qed.

(** The key before [end_] after an assignment. *)
Lemma last_key_assign k v m :
  StdMap.ordered m = true ->
  StdMap.first (StdMap.assign k v m)
    (Nat.pred (StdMap.end_ (StdMap.assign k v m)))
  = N.max k (if StdMap.empty m then 0
             else StdMap.first m (Nat.pred (StdMap.end_ m))).
Proof.
  intros Hord.
  destruct (last_key_max (StdMap.assign k v m)
              (ordered_assign k v m Hord) (assign_not_empty k v m))
    as [Hin Hmax].
  apply keys_assign in Hin.
  pose proof (Hmax k (proj2 (keys_assign k v m k) (or_introl eq_refl))) as Hk.
  destruct m as [|p m].
  - cbn [StdMap.empty]. destruct Hin as [E|[]]. lia.
  - cbn [StdMap.empty].
    assert (Hne : p :: m <> []) by discriminate.
    destruct (last_key_max (p :: m) Hord Hne) as [Hin0 Hmax0].
    pose proof (Hmax _ (proj2 (keys_assign k v (p :: m) _) (or_intror Hin0)))
      as Hold.
    destruct Hin as [E|Hin]; [lia|].
    specialize (Hmax0 _ Hin). lia.
Qed.

End StdMapMoreFacts.

(** ** More facts about the insertion gate *)
Section InsertionFacts.
Context {ext : Externals}.
Implicit Types (this other : checkpoints) (h stored : crypto_hash).

Lemma difficulty_eqb_true (a b : difficulty_type) :
  difficulty_eqb a b = true <-> a = b.
Proof.
  unfold difficulty_eqb. destruct (difficulty_eq_dec a b); split; congruence.
Qed.

Lemma hash_accepted_Some (o : option crypto_hash) hash_str h :
  hash_accepted o hash_str = Some h <->
  hex_to_pod hash_str = Some h /\ (forall stored, o = Some stored -> h = stored).
Proof.
  unfold hash_accepted.
  destruct (hex_to_pod hash_str) as [h0|]; [|split; [|intros [? _]]; discriminate].
  destruct o as [stored|].
  - destruct (hash_eqb h0 stored) eqn:E.
    + apply hash_eqb_true in E. subst stored. split.
      * intros [= <-]. split; [reflexivity|]. intros s [= <-]. reflexivity.
      * intros [[= <-] _]. reflexivity.
    + apply hash_eqb_false in E. split; [discriminate|].
      intros [[= <-] H]. elim E. apply H. reflexivity.
  - split.
    + intros [= <-]. split; [reflexivity|discriminate].
    + intros [[= <-] _]. reflexivity.
Qed.

Lemma hash_accepted_None (o : option crypto_hash) hash_str :
  hash_accepted o hash_str = None <->
  hex_to_pod hash_str = None \/
  exists h stored,
    hex_to_pod hash_str = Some h /\ o = Some stored /\ h <> stored.
Proof.
  unfold hash_accepted.
  destruct (hex_to_pod hash_str) as [h0|].
  - destruct o as [stored|].
    + destruct (hash_eqb h0 stored) eqn:E.
      * apply hash_eqb_true in E. split; [discriminate|].
        intros [H|(h & s & [= <-] & [= <-] & Hne)]; [discriminate|contradiction].
      * apply hash_eqb_false in E. split; [|reflexivity].
        intros _. right. exists h0, stored. repeat split; assumption.
    + split; [discriminate|].
      intros [H|(h & s & _ & H & _)]; discriminate.
  - split; [intros _; left|]; reflexivity.
Qed.

Lemma difficulty_accepted_Some (o : option difficulty_type) difficulty_str d :
  difficulty_accepted o difficulty_str = Some d <->
  difficulty_of_string difficulty_str = Some d /\
  (forall sd, o = Some sd -> d = sd).
Proof.
  unfold difficulty_accepted.
  destruct (difficulty_of_string difficulty_str) as [d0|];
    [|split; [|intros [? _]]; discriminate].
  destruct o as [sd0|].
  - destruct (difficulty_eqb d0 sd0) eqn:E.
    + apply difficulty_eqb_true in E. subst sd0. split.
      * intros [= <-]. split; [reflexivity|]. intros s [= <-]. reflexivity.
      * intros [[= <-] _]. reflexivity.
    + apply difficulty_eqb_false in E. split; [discriminate|].
      intros [[= <-] H]. elim E. apply H. reflexivity.
  - split.
    + intros [= <-]. split; [reflexivity|discriminate].
    + intros [[= <-] _]. reflexivity.
Qed.

(** [add_checkpoint] in terms of its two checks. *)
Lemma add_checkpoint_normal this height hash_str difficulty_str :
  add_checkpoint this height hash_str difficulty_str =
  match hash_accepted (StdMap.find height (m_points this)) hash_str with
  | None => (false, this)
  | Some h =>
      match difficulty_str with
      | EmptyString =>
          (true, set_m_points this (StdMap.assign height h (m_points this)))
      | String _ _ =>
          match
            difficulty_accepted
              (StdMap.find height (m_difficulty_points this)) difficulty_str
          with
          | None =>
              (false,
               set_m_points this (StdMap.assign height h (m_points this)))
          | Some d =>
              (true,
               {| m_points := StdMap.assign height h (m_points this);
                  m_difficulty_points :=
                    StdMap.assign height d (m_difficulty_points this) |})
          end
      end
  end.
Proof.
  unfold add_checkpoint, hash_accepted, difficulty_accepted,
    CHECK_AND_ASSERT_MES.
  destruct (hex_to_pod hash_str) as [h|]; [|reflexivity].
  destruct (StdMap.find height (m_points this)) as [stored|].
  - destruct (hash_eqb h stored); [|reflexivity].
    destruct difficulty_str; [reflexivity|].
    destruct (difficulty_of_string _) as [d|]; [|reflexivity].
    cbn [m_difficulty_points set_m_points].
    destruct (StdMap.find height (m_difficulty_points this)) as [sd|];
      [destruct (difficulty_eqb d sd)|]; reflexivity.
  - destruct difficulty_str; [reflexivity|].
    destruct (difficulty_of_string _) as [d|]; [|reflexivity].
    cbn [m_difficulty_points set_m_points].
    destruct (StdMap.find height (m_difficulty_points this)) as [sd|];
      [destruct (difficulty_eqb d sd)|]; reflexivity.
Qed.

(** What a successful [add_checkpoint] has done. *)
Lemma add_checkpoint_true_inv this height hash_str difficulty_str this' :
  add_checkpoint this height hash_str difficulty_str = (true, this') ->
  exists h,
    hex_to_pod hash_str = Some h /\
    (forall stored, StdMap.find height (m_points this) = Some stored ->
       h = stored) /\
    m_points this' = StdMap.assign height h (m_points this) /\
    (difficulty_str = ""%string ->
     m_difficulty_points this' = m_difficulty_points this) /\
    (difficulty_str <> ""%string ->
     exists d,
       difficulty_of_string difficulty_str = Some d /\
       (forall sd, StdMap.find height (m_difficulty_points this) = Some sd ->
          d = sd) /\
       m_difficulty_points this'
       = StdMap.assign height d (m_difficulty_points this)).
Proof.
  rewrite add_checkpoint_normal.
  destruct (hash_accepted _ hash_str) as [h|] eqn:Eh; [|discriminate].
  apply hash_accepted_Some in Eh. destruct Eh as [Hdec Hagree].
  destruct difficulty_str as [|c s].
  - intros [= <-]. exists h. repeat split; try assumption.
    intros H. contradiction.
  - destruct (difficulty_accepted _ _) as [d|] eqn:Ed; [|discriminate].
    apply difficulty_accepted_Some in Ed. destruct Ed as [Hd Hdagree].
    intros [= <-]. exists h. repeat split; try assumption; try discriminate.
    intros _. exists d. repeat split; assumption.
Qed.

(** What a failed [add_checkpoint] without a difficulty string means: the
    string does not decode or the height holds another hash; the object is
    left as it was. *)
Lemma add_checkpoint_false_inv this height hash_str this' :
  add_checkpoint this height hash_str "" = (false, this') ->
  this' = this /\
  (hex_to_pod hash_str = None \/
   exists h stored,
     hex_to_pod hash_str = Some h /\
     StdMap.find height (m_points this) = Some stored /\ h <> stored).
Proof.
  rewrite add_checkpoint_normal.
  destruct (hash_accepted _ hash_str) as [h|] eqn:Eh; [discriminate|].
  apply hash_accepted_None in Eh. intros [= <-]. split; [reflexivity|exact Eh].
Qed.

(** X1: [add_checkpoint] returns [true] exactly when the hash string
    decodes to a hash that agrees with the hash anchor already at the
    height, if there is one, and the difficulty string is empty or converts
    to a difficulty that agrees with the difficulty anchor already at the
    height, if there is one. *)
Theorem add_checkpoint_accepts_iff this height hash_str difficulty_str :
  fst (add_checkpoint this height hash_str difficulty_str) = true <->
  (exists h,
     hex_to_pod hash_str = Some h /\
     forall stored, StdMap.find height (m_points this) = Some stored ->
       h = stored) /\
  (difficulty_str = ""%string \/
   exists d,
     difficulty_of_string difficulty_str = Some d /\
     forall sd, StdMap.find height (m_difficulty_points this) = Some sd ->
       d = sd).
Proof.
  rewrite add_checkpoint_normal. split.
  - destruct (hash_accepted _ hash_str) as [h|] eqn:Eh; [|discriminate].
    apply hash_accepted_Some in Eh. intros Hr. split; [exists h; exact Eh|].
    destruct difficulty_str as [|c s]; [left; reflexivity|].
    destruct (difficulty_accepted _ _) as [d|] eqn:Ed; [|discriminate].
    apply difficulty_accepted_Some in Ed. right. exists d. exact Ed.
  - intros [(h & Hh) Hd].
    apply hash_accepted_Some in Hh. rewrite Hh.
    destruct difficulty_str as [|c s]; [reflexivity|].
    destruct Hd as [Hd|(d & Hd)]; [discriminate|].
    apply difficulty_accepted_Some in Hd. rewrite Hd. reflexivity.
Qed.

(** X2: after an [add_checkpoint] that returned [true] the height answers
    with the decoded hash: [check_block] there reports a checkpoint, passes
    that hash and fails every other one. *)
Theorem add_checkpoint_then_check_block
  this height hash_str difficulty_str this' :
  add_checkpoint this height hash_str difficulty_str = (true, this') ->
  exists h,
    hex_to_pod hash_str = Some h /\
    StdMap.find height (m_points this') = Some h /\
    check_block this' height h = (true, true) /\
    (forall h', h' <> h -> check_block this' height h' = (false, true)).
Proof.
  intros Hadd. apply add_checkpoint_true_inv in Hadd.
  destruct Hadd as (h & Hdec & _ & Hmp & _).
  assert (Hfind : StdMap.find height (m_points this') = Some h)
    by (rewrite Hmp; apply find_assign_eq).
  exists h. split; [exact Hdec|]. split; [exact Hfind|].
  unfold check_block. rewrite Hfind. split.
  - rewrite (proj2 (hash_eqb_true h h) eq_refl). reflexivity.
  - intros h' Hne.
    assert (E : hash_eqb h h' = false) by (apply hash_eqb_false; congruence).
    rewrite E. reflexivity.
Qed.

(** X3: whatever it returns, [add_checkpoint] leaves every other height as
    it was, in the hash map and in the difficulty map. *)
Theorem add_checkpoint_other_heights
  this height hash_str difficulty_str k :
  k <> height ->
  StdMap.find k
    (m_points (snd (add_checkpoint this height hash_str difficulty_str)))
  = StdMap.find k (m_points this) /\
  StdMap.find k
    (m_difficulty_points
       (snd (add_checkpoint this height hash_str difficulty_str)))
  = StdMap.find k (m_difficulty_points this).
Proof.
  intros Hne. rewrite add_checkpoint_normal.
  destruct (hash_accepted _ hash_str) as [h|]; [|split; reflexivity].
  destruct difficulty_str as [|c s].
  - cbn. rewrite find_assign_neq by exact Hne. split; reflexivity.
  - destruct (difficulty_accepted _ _) as [d|]; cbn;
      rewrite ?find_assign_neq by exact Hne; split; reflexivity.
Qed.

(** X4: whatever it returns, [add_checkpoint] never removes or changes an
    anchor: a hash or a difficulty found at some height before the call is
    found there after it. *)
Theorem add_checkpoint_first_writer_wins
  this height hash_str difficulty_str k :
  (forall stored,
     StdMap.find k (m_points this) = Some stored ->
     StdMap.find k
       (m_points (snd (add_checkpoint this height hash_str difficulty_str)))
     = Some stored) /\
  (forall sd,
     StdMap.find k (m_difficulty_points this) = Some sd ->
     StdMap.find k
       (m_difficulty_points
          (snd (add_checkpoint this height hash_str difficulty_str)))
     = Some sd).
Proof.
  rewrite add_checkpoint_normal.
  destruct (hash_accepted _ hash_str) as [h|] eqn:Eh;
    [|split; intros ? H; exact H].
  apply hash_accepted_Some in Eh. destruct Eh as [_ Hagree].
  assert (Hmp : forall stored,
             StdMap.find k (m_points this) = Some stored ->
             StdMap.find k (StdMap.assign height h (m_points this))
             = Some stored).
  { intros stored Hk. destruct (N.eq_dec k height) as [->|Hne].
    - rewrite (Hagree stored Hk). apply find_assign_eq.
    - rewrite find_assign_neq by exact Hne. exact Hk. }
  destruct difficulty_str as [|c s]; [split; [exact Hmp|intros ? H; exact H]|].
  destruct (difficulty_accepted _ _) as [d|] eqn:Ed;
    [|split; [exact Hmp|intros ? H; exact H]].
  apply difficulty_accepted_Some in Ed. destruct Ed as [_ Hdagree].
  split; [exact Hmp|]. cbn [snd m_difficulty_points].
  intros sd Hk. destruct (N.eq_dec k height) as [->|Hne].
  - rewrite (Hdagree sd Hk). apply find_assign_eq.
  - rewrite find_assign_neq by exact Hne. exact Hk.
Qed.

(** X5: a difficulty string that does not convert makes the call return
    [false] after the hash has been assigned: the hash anchor is recorded
    by the failed call and the difficulty map is left as it was. *)
Theorem add_checkpoint_difficulty_parse_failure
  this height hash_str difficulty_str h :
  hex_to_pod hash_str = Some h ->
  (forall stored, StdMap.find height (m_points this) = Some stored ->
     h = stored) ->
  difficulty_str <> ""%string ->
  difficulty_of_string difficulty_str = None ->
  add_checkpoint this height hash_str difficulty_str
  = (false, set_m_points this (StdMap.assign height h (m_points this))) /\
  StdMap.find height
    (m_points (snd (add_checkpoint this height hash_str difficulty_str)))
  = Some h.
Proof.
  intros Hdec Hagree Hne Hd.
  assert (E : add_checkpoint this height hash_str difficulty_str
              = (false,
                 set_m_points this (StdMap.assign height h (m_points this)))).
  { rewrite add_checkpoint_normal.
    rewrite (proj2 (hash_accepted_Some _ hash_str h) (conj Hdec Hagree)).
    destruct difficulty_str as [|c s]; [contradiction|].
    unfold difficulty_accepted. rewrite Hd. reflexivity. }
  rewrite E. split; [reflexivity|]. cbn. apply find_assign_eq.
Qed.

(** X6: [add_checkpoint] keeps the difficulty anchors at checkpointed
    heights: when every difficulty anchor sits at a height with a hash
    anchor before the call, the same holds after it, whatever the call
    returns. *)
Theorem add_checkpoint_difficulty_points_anchored
  this height hash_str difficulty_str :
  difficulty_points_anchored this ->
  difficulty_points_anchored
    (snd (add_checkpoint this height hash_str difficulty_str)).
Proof.
  unfold difficulty_points_anchored. intros Hinv k d.
  rewrite add_checkpoint_normal.
  destruct (hash_accepted _ hash_str) as [h|]; [|apply Hinv].
  assert (Hkeep : forall k d,
             StdMap.find k (m_difficulty_points this) = Some d ->
             exists h0,
               StdMap.find k (StdMap.assign height h (m_points this))
               = Some h0).
  { intros k0 d0 Hk. destruct (N.eq_dec k0 height) as [->|Hne].
    - exists h. apply find_assign_eq.
    - rewrite find_assign_neq by exact Hne. exact (Hinv k0 d0 Hk). }
  destruct difficulty_str as [|c s]; [apply Hkeep|].
  destruct (difficulty_accepted _ _) as [d1|]; [|apply Hkeep].
  cbn [snd m_points m_difficulty_points].
  destruct (N.eq_dec k height) as [->|Hne].
  - intros _. exists h. apply find_assign_eq.
  - rewrite find_assign_neq by exact Hne. apply Hkeep.
Qed.

End InsertionFacts.

(** ** More facts about the queries *)
Section QueryFacts.
Context {ext : Externals}.
Implicit Types (this other : checkpoints) (h stored : crypto_hash).

Lemma zone_true_iff this height :
  is_in_checkpoint_zone this height = true <->
  m_points this <> [] /\ height <= get_max_height this.
Proof.
  unfold is_in_checkpoint_zone, get_max_height.
  destruct (m_points this) as [|p m]; cbn [StdMap.empty negb andb].
  - split; [discriminate|intros [H _]; contradiction].
  - rewrite N.leb_le. split; [intros H; split; [discriminate|exact H]|].
    intros [_ H]. exact H.
Qed.

Lemma get_max_height_assign this this' k h :
  StdMap.ordered (m_points this) = true ->
  m_points this' = StdMap.assign k h (m_points this) ->
  get_max_height this' = N.max (get_max_height this) k.
Proof.
  intros Hord Hmp. unfold get_max_height. rewrite Hmp.
  pose proof (assign_not_empty k h (m_points this)) as Hne.
  destruct (StdMap.assign k h (m_points this)) as [|p m] eqn:E;
    [contradiction|].
  cbn [StdMap.empty]. rewrite <- E.
  rewrite (last_key_assign k h (m_points this) Hord). apply N.max_comm.
Qed.

(** A registered height is at most [get_max_height]. *)
Lemma find_le_max this k stored :
  StdMap.ordered (m_points this) = true ->
  StdMap.find k (m_points this) = Some stored ->
  m_points this <> [] /\ k <= get_max_height this.
Proof.
  intros Hord Hfind.
  assert (Hne : m_points this <> [])
    by (destruct (m_points this); [discriminate Hfind|discriminate]).
  split; [exact Hne|].
  apply find_Some_In, In_keys in Hfind.
  destruct (last_key_max (m_points this) Hord Hne) as [_ Hmax].
  specialize (Hmax k Hfind). unfold get_max_height.
  destruct (m_points this); [contradiction|exact Hmax].
Qed.

(** The reorganisation gate, case by case. *)
Lemma is_alternative_block_allowed_cases this blockchain_height block_height :
  StdMap.ordered (m_points this) = true ->
  (block_height = 0 /\
   is_alternative_block_allowed this blockchain_height block_height = false) \/
  (0 < block_height /\
   (forall k, In k (StdMap.keys (m_points this)) -> blockchain_height < k) /\
   is_alternative_block_allowed this blockchain_height block_height = true) \/
  (0 < block_height /\
   exists c,
     In c (StdMap.keys (m_points this)) /\ c <= blockchain_height /\
     (forall k, In k (StdMap.keys (m_points this)) ->
        k <= blockchain_height -> k <= c) /\
     is_alternative_block_allowed this blockchain_height block_height
     = (c <? block_height)).
Proof.
  intros Hord. unfold is_alternative_block_allowed, StdMap.begin.
  destruct (N.eqb_spec 0 block_height) as [E|Hpos];
    [left; split; [symmetry; exact E|reflexivity]|].
  right.
  destruct (upper_bound_floor blockchain_height _ Hord)
    as [[Hub Habove]|(Hub & Hin & Hle & Hmax)].
  - left. rewrite Hub. split; [lia|]. split; [exact Habove|reflexivity].
  - right. apply Nat.eqb_neq in Hub. rewrite Hub. split; [lia|].
    eexists. split; [exact Hin|]. split; [exact Hle|].
    split; [exact Hmax|reflexivity].
Qed.

(** X7: [get_max_height] never goes down through [add_checkpoint], and
    after a call that returned [true] it is the greater of the old value
    and the inserted height. *)
Theorem add_checkpoint_max_height this height hash_str difficulty_str :
  StdMap.ordered (m_points this) = true ->
  get_max_height this
  <= get_max_height (snd (add_checkpoint this height hash_str difficulty_str))
  /\
  (fst (add_checkpoint this height hash_str difficulty_str) = true ->
   get_max_height (snd (add_checkpoint this height hash_str difficulty_str))
   = N.max (get_max_height this) height).
Proof.
  intros Hord. split.
  - destruct (add_checkpoint_m_points this height hash_str difficulty_str)
      as [E|(h & _ & _ & E)].
    + unfold get_max_height. rewrite E. lia.
    + rewrite (get_max_height_assign this _ height h Hord E). lia.
  - intros Hr.
    destruct (add_checkpoint this height hash_str difficulty_str)
      as [r this'] eqn:E.
    cbn [fst snd] in *. subst r.
    apply add_checkpoint_true_inv in E.
    destruct E as (h & _ & _ & Hmp & _).
    exact (get_max_height_assign this this' height h Hord Hmp).
Qed.

(** X8: the checkpoint zone only grows through [add_checkpoint], and after
    a call that returned [true] the inserted height is in the zone. *)
Theorem is_in_checkpoint_zone_grows this height hash_str difficulty_str k :
  StdMap.ordered (m_points this) = true ->
  (is_in_checkpoint_zone this k = true ->
   is_in_checkpoint_zone
     (snd (add_checkpoint this height hash_str difficulty_str)) k = true) /\
  (fst (add_checkpoint this height hash_str difficulty_str) = true ->
   is_in_checkpoint_zone
     (snd (add_checkpoint this height hash_str difficulty_str)) height = true).
Proof.
  intros Hord. split.
  - rewrite !zone_true_iff. intros [Hne Hle].
    destruct (add_checkpoint_m_points this height hash_str difficulty_str)
      as [E|(h & _ & _ & E)].
    + unfold get_max_height in *. rewrite E. split; assumption.
    + rewrite (get_max_height_assign this _ height h Hord E).
      split; [rewrite E; apply assign_not_empty|lia].
  - intros Hr.
    destruct (add_checkpoint this height hash_str difficulty_str)
      as [r this'] eqn:E.
    cbn [fst snd] in *. subst r.
    apply add_checkpoint_true_inv in E.
    destruct E as (h & _ & _ & Hmp & _).
    apply zone_true_iff.
    rewrite (get_max_height_assign this this' height h Hord Hmp).
    split; [rewrite Hmp; apply assign_not_empty|lia].
Qed.

(** X9: every registered height is inside the checkpoint zone; so outside
    the zone [check_block] passes every hash and reports no checkpoint. *)
Theorem check_block_outside_zone this height h :
  StdMap.ordered (m_points this) = true ->
  (snd (check_block this height h) = true ->
   is_in_checkpoint_zone this height = true) /\
  (is_in_checkpoint_zone this height = false ->
   check_block this height h = (true, false)).
Proof.
  intros Hord. unfold check_block.
  destruct (StdMap.find height (m_points this)) as [stored|] eqn:Ef.
  - pose proof (proj2 (zone_true_iff this height)
                  (find_le_max this height stored Hord Ef)) as Hz.
    split; [intros _; exact Hz|]. rewrite Hz. discriminate.
  - split; [discriminate|reflexivity].
Qed.

(** X10: a block above the highest checkpoint is always allowed as an
    alternative, at every chain height. *)
Theorem is_alternative_block_allowed_above_max
  this blockchain_height block_height :
  StdMap.ordered (m_points this) = true ->
  get_max_height this < block_height ->
  is_alternative_block_allowed this blockchain_height block_height = true.
Proof.
  intros Hord Hgt.
  destruct (is_alternative_block_allowed_cases this blockchain_height
              block_height Hord)
    as [[E _]|[(_ & _ & E)|(_ & c & Hin & _ & _ & E)]].
  - lia.
  - exact E.
  - rewrite E. apply N.ltb_lt.
    assert (Hne : m_points this <> [])
      by (destruct (m_points this); [destruct Hin|discriminate]).
    destruct (last_key_max (m_points this) Hord Hne) as [_ Hmax].
    specialize (Hmax c Hin). unfold get_max_height in Hgt.
    destruct (m_points this); [contradiction|]. cbn [StdMap.empty] in Hgt.
    lia.
Qed.

(** X11: once the chain has reached a checkpoint, no alternative block at
    or below that checkpoint is allowed. *)
Theorem is_alternative_block_allowed_passed_checkpoint
  this blockchain_height block_height c :
  StdMap.ordered (m_points this) = true ->
  In c (StdMap.keys (m_points this)) ->
  c <= blockchain_height ->
  block_height <= c ->
  is_alternative_block_allowed this blockchain_height block_height = false.
Proof.
  intros Hord Hin Hle Hb.
  destruct (is_alternative_block_allowed_cases this blockchain_height
              block_height Hord)
    as [[_ E]|[(_ & Habove & _)|(_ & c' & _ & _ & Hmax & E)]].
  - exact E.
  - specialize (Habove c Hin). lia.
  - rewrite E. apply N.ltb_ge. specialize (Hmax c Hin Hle). lia.
Qed.

(** X12: the gate is monotone: an allowed block height stays allowed when
    it is raised, and stays allowed when the chain height is lowered. *)
Theorem is_alternative_block_allowed_monotone
  this blockchain_height blockchain_height' block_height block_height' :
  StdMap.ordered (m_points this) = true ->
  blockchain_height' <= blockchain_height ->
  block_height <= block_height' ->
  is_alternative_block_allowed this blockchain_height block_height = true ->
  is_alternative_block_allowed this blockchain_height' block_height' = true.
Proof.
  intros Hord Hchain Hblock Hallowed.
  destruct (is_alternative_block_allowed_cases this blockchain_height
              block_height Hord)
    as [[_ E]|[(Hpos & Habove & _)|(Hpos & c & Hin & Hle & Hmax & E)]];
    [congruence| |];
    destruct (is_alternative_block_allowed_cases this blockchain_height'
                block_height' Hord)
      as [[Hz _]|[(_ & _ & E')|(_ & c' & Hin' & Hle' & Hmax' & E')]];
    try lia; try exact E'.
  - specialize (Habove c' Hin'). lia.
  - rewrite E'. apply N.ltb_lt.
    rewrite E in Hallowed. apply N.ltb_lt in Hallowed.
    assert (c' <= c) by (apply Hmax; [exact Hin'|lia]). lia.
Qed.

(** X13: on stores in key order [check_for_conflicts] does not depend on
    which of the two stores is asked. *)
Theorem check_for_conflicts_symmetric this other :
  StdMap.ordered (m_points this) = true ->
  StdMap.ordered (m_points other) = true ->
  check_for_conflicts this other = check_for_conflicts other this.
Proof.
  intros Hthis Hother. unfold check_for_conflicts, get_points.
  assert (Hswap : forall a b,
             StdMap.ordered (m_points b) = true ->
             check_for_conflicts_loop a (m_points b) = false ->
             check_for_conflicts_loop b (m_points a) = false).
  { intros a b Hb Hf. apply check_for_conflicts_loop_false in Hf.
    destruct Hf as (k & h & stored & Hin & Hfind & Hne).
    apply check_for_conflicts_loop_false. exists k, stored, h.
    split; [exact (find_Some_In k stored _ Hfind)|].
    split; [exact (In_find k h _ Hb Hin)|congruence]. }
  destruct (check_for_conflicts_loop this (m_points other)) eqn:E1,
    (check_for_conflicts_loop other (m_points this)) eqn:E2;
    try reflexivity.
  - rewrite (Hswap other this Hthis E2) in E1. discriminate.
  - rewrite (Hswap this other Hother E1) in E2. discriminate.
Qed.

(** X14: a store in key order has no conflict with itself. *)
Theorem check_for_conflicts_reflexive this :
  StdMap.ordered (m_points this) = true ->
  check_for_conflicts this this = true.
Proof.
  intros Hord. unfold check_for_conflicts, get_points.
  destruct (check_for_conflicts_loop this (m_points this)) eqn:E;
    [reflexivity|].
  apply check_for_conflicts_loop_false in E.
  destruct E as (k & h & stored & Hin & Hfind & Hne).
  rewrite (In_find k h _ Hord Hin) in Hfind. congruence.
Qed.

Lemma add_checkpoint_find_neq this height hash_str difficulty_str k :
  k <> height ->
  StdMap.find k
    (m_points (snd (add_checkpoint this height hash_str difficulty_str)))
  = StdMap.find k (m_points this) /\
  StdMap.find k
    (m_difficulty_points
       (snd (add_checkpoint this height hash_str difficulty_str)))
  = StdMap.find k (m_difficulty_points this).
Proof.
  intros Hne.
  destruct (add_checkpoint_m_points this height hash_str difficulty_str)
    as [->|(h & _ & _ & ->)];
    destruct (add_checkpoint_m_difficulty_points this height hash_str
                difficulty_str) as [->|(d & _ & ->)];
    rewrite ?find_assign_neq by exact Hne; split; reflexivity.
Qed.

(** X15: two [add_checkpoint] calls at different heights can be swapped:
    each call returns the same [bool] in either order and the object is the
    same after both. *)
Theorem add_checkpoint_commute
  this height1 hash_str1 difficulty_str1 height2 hash_str2 difficulty_str2 :
  height1 <> height2 ->
  snd (add_checkpoint
         (snd (add_checkpoint this height1 hash_str1 difficulty_str1))
         height2 hash_str2 difficulty_str2)
  = snd (add_checkpoint
           (snd (add_checkpoint this height2 hash_str2 difficulty_str2))
           height1 hash_str1 difficulty_str1) /\
  fst (add_checkpoint
         (snd (add_checkpoint this height1 hash_str1 difficulty_str1))
         height2 hash_str2 difficulty_str2)
  = fst (add_checkpoint this height2 hash_str2 difficulty_str2) /\
  fst (add_checkpoint
         (snd (add_checkpoint this height2 hash_str2 difficulty_str2))
         height1 hash_str1 difficulty_str1)
  = fst (add_checkpoint this height1 hash_str1 difficulty_str1).
Proof.
  intros Hne.
  assert (Hne' : height2 <> height1) by congruence.
  destruct (add_checkpoint_find_neq this height1 hash_str1
              difficulty_str1 height2 Hne') as [Hp1 Hd1].
  destruct (add_checkpoint_find_neq this height2 hash_str2
              difficulty_str2 height1 Hne) as [Hp2 Hd2].
  rewrite (add_checkpoint_normal
             (snd (add_checkpoint this height1 hash_str1 difficulty_str1))).
  rewrite (add_checkpoint_normal
             (snd (add_checkpoint this height2 hash_str2 difficulty_str2))).
  rewrite Hp1, Hd1, Hp2, Hd2.
  rewrite !(add_checkpoint_normal this).
  destruct this as [mp md]. cbn [m_points m_difficulty_points].
  destruct (hash_accepted (StdMap.find height1 mp) hash_str1) as [h1|];
    destruct (hash_accepted (StdMap.find height2 mp) hash_str2) as [h2|];
    destruct difficulty_str1 as [|c1 s1];
    destruct difficulty_str2 as [|c2 s2];
    repeat match goal with
      | |- context [difficulty_accepted ?o ?s] =>
          destruct (difficulty_accepted o s)
      end;
    cbn [fst snd m_points m_difficulty_points set_m_points];
    repeat split;
    rewrite ?(assign_comm height2 _ height1 _ mp Hne'),
      ?(assign_comm height2 _ height1 _ md Hne');
    reflexivity.
Qed.

End QueryFacts.

(** ** Facts about runs of [ADD_CHECKPOINT] *)
Section BatchFacts.
Context {ext : Externals}.
Implicit Types (this other : checkpoints) (h stored : crypto_hash).

Lemma add_checkpoints_cons this k hash_str rest :
  add_checkpoints this ((k, hash_str) :: rest)
  = if fst (add_checkpoint this k hash_str "")
    then add_checkpoints (snd (add_checkpoint this k hash_str "")) rest
    else (false, snd (add_checkpoint this k hash_str "")).
Proof.
  cbn [add_checkpoints]. unfold ADD_CHECKPOINT.
  destruct (add_checkpoint this k hash_str "") as [r this'].
  destruct r; reflexivity.
Qed.

Lemma add_checkpoint_difficulty_unchanged this k hash_str :
  m_difficulty_points (snd (add_checkpoint this k hash_str ""))
  = m_difficulty_points this.
Proof.
  rewrite add_checkpoint_normal.
  destruct (hash_accepted _ hash_str); reflexivity.
Qed.

Lemma add_checkpoint_ordered this k hash_str difficulty_str :
  StdMap.ordered (m_points this) = true ->
  StdMap.ordered
    (m_points (snd (add_checkpoint this k hash_str difficulty_str))) = true.
Proof.
  intros Hord.
  destruct (add_checkpoint_m_points this k hash_str difficulty_str)
    as [->|(h & _ & _ & ->)]; [exact Hord|apply ordered_assign; exact Hord].
Qed.

Lemma add_checkpoint_max_le this k hash_str difficulty_str :
  StdMap.ordered (m_points this) = true ->
  get_max_height this
  <= get_max_height (snd (add_checkpoint this k hash_str difficulty_str)).
Proof.
  intros Hord.
  destruct (add_checkpoint_m_points this k hash_str difficulty_str)
    as [E|(h & _ & _ & E)].
  - unfold get_max_height. rewrite E. lia.
  - rewrite (get_max_height_assign this _ k h Hord E). lia.
Qed.

(** What a run of [ADD_CHECKPOINT] keeps, whatever it returns. *)
Lemma add_checkpoints_frame pts :
  forall this,
    m_difficulty_points (snd (add_checkpoints this pts))
    = m_difficulty_points this /\
    (forall k stored,
       StdMap.find k (m_points this) = Some stored ->
       StdMap.find k (m_points (snd (add_checkpoints this pts)))
       = Some stored) /\
    (StdMap.ordered (m_points this) = true ->
     StdMap.ordered (m_points (snd (add_checkpoints this pts))) = true /\
     get_max_height this <= get_max_height (snd (add_checkpoints this pts))).
Proof.
  induction pts as [|[k hash_str] rest IH]; intros this.
  - cbn [add_checkpoints snd]. split; [reflexivity|].
    split; [intros k stored H; exact H|].
    intros H. split; [exact H|apply N.le_refl].
  - rewrite add_checkpoints_cons.
    pose proof (add_checkpoint_difficulty_unchanged this k hash_str) as Hd.
    pose proof (fun j stored =>
                  add_checkpoint_keeps_anchors this k hash_str "" j stored)
      as Hk.
    pose proof (add_checkpoint_ordered this k hash_str "") as Ho.
    pose proof (add_checkpoint_max_le this k hash_str "") as Hm.
    destruct (fst (add_checkpoint this k hash_str "")).
    + destruct (IH (snd (add_checkpoint this k hash_str "")))
        as (IHd & IHk & IHo).
      split; [congruence|]. split.
      * intros j stored Hj. apply IHk, Hk, Hj.
      * intros Hord. destruct (IHo (Ho Hord)) as [Ho' Hm'].
        split; [exact Ho'|]. specialize (Hm Hord). lia.
    + cbn [snd]. split; [exact Hd|]. split; [exact Hk|].
      intros Hord. split; [exact (Ho Hord)|exact (Hm Hord)].
Qed.

(** After a run that returned [true] every pair of the run is in the
    store. *)
Lemma add_checkpoints_true_present pts :
  forall this this',
    add_checkpoints this pts = (true, this') ->
    forall k hash_str,
      In (k, hash_str) pts ->
      exists h,
        hex_to_pod hash_str = Some h /\
        StdMap.find k (m_points this') = Some h.
Proof.
  induction pts as [|[k0 s0] rest IH]; intros this this' Hrun k s Hin;
    [destruct Hin|].
  rewrite add_checkpoints_cons in Hrun.
  destruct (add_checkpoint this k0 s0 "") as [r st] eqn:E.
  cbn [fst snd] in Hrun. destruct r; [|discriminate].
  destruct Hin as [[= <- <-]|Hin]; [|exact (IH st this' Hrun k s Hin)].
  apply add_checkpoint_true_inv in E.
  destruct E as (h & Hdec & _ & Hmp & _).
  exists h. split; [exact Hdec|].
  pose proof (add_checkpoints_frame rest st) as (_ & Hkeep & _).
  rewrite Hrun in Hkeep. apply Hkeep. rewrite Hmp. apply find_assign_eq.
Qed.

(** A run that returned [false] stopped at a pair whose string does not
    decode, or whose hash differs from the anchor at its height; that
    anchor was in the store before the run or comes from a pair of the
    run. *)
Lemma add_checkpoints_false_inv pts :
  forall this this',
    add_checkpoints this pts = (false, this') ->
    exists k hash_str,
      In (k, hash_str) pts /\
      (hex_to_pod hash_str = None \/
       exists h stored,
         hex_to_pod hash_str = Some h /\ h <> stored /\
         StdMap.find k (m_points this') = Some stored /\
         (StdMap.find k (m_points this) = Some stored \/
          exists hash_str',
            In (k, hash_str') pts /\ hex_to_pod hash_str' = Some stored)).
Proof.
  induction pts as [|[k0 s0] rest IH]; intros this this' Hrun;
    [discriminate|].
  rewrite add_checkpoints_cons in Hrun.
  destruct (add_checkpoint this k0 s0 "") as [r st] eqn:E.
  cbn [fst snd] in Hrun. destruct r.
  - destruct (IH st this' Hrun) as (k & s & Hin & Hwhy).
    exists k, s. split; [right; exact Hin|].
    destruct Hwhy as [Hnone|(h & stored & Hdec & Hne & Hf' & Hfrom)];
      [left; exact Hnone|right].
    exists h, stored. repeat split; try assumption.
    destruct Hfrom as [Hst|(s' & Hin' & Hdec')].
    + apply add_checkpoint_true_inv in E.
      destruct E as (h0 & Hdec0 & _ & Hmp & _). rewrite Hmp in Hst.
      destruct (N.eq_dec k k0) as [->|Hk].
      * rewrite find_assign_eq in Hst. injection Hst as <-.
        right. exists s0. split; [left; reflexivity|exact Hdec0].
      * rewrite find_assign_neq in Hst by exact Hk. left. exact Hst.
    + right. exists s'. split; [right; exact Hin'|exact Hdec'].
  - injection Hrun as <-. apply add_checkpoint_false_inv in E.
    destruct E as [-> Hwhy]. exists k0, s0. split; [left; reflexivity|].
    destruct Hwhy as [Hnone|(h & stored & Hdec & Hf & Hne)];
      [left; exact Hnone|right].
    exists h, stored. repeat split; try assumption. left. exact Hf.
Qed.

(** A run over pairs the store already holds changes nothing. *)
Lemma add_checkpoints_present_noop pts :
  forall this,
    StdMap.ordered (m_points this) = true ->
    (forall k hash_str,
       In (k, hash_str) pts ->
       exists h,
         hex_to_pod hash_str = Some h /\
         StdMap.find k (m_points this) = Some h) ->
    add_checkpoints this pts = (true, this).
Proof.
  induction pts as [|[k0 s0] rest IH]; intros this Hord Hall; [reflexivity|].
  rewrite add_checkpoints_cons.
  destruct (Hall k0 s0 (or_introl eq_refl)) as (h & Hdec & Hfind).
  assert (E : add_checkpoint this k0 s0 "" = (true, this)).
  { unfold add_checkpoint. rewrite Hdec, Hfind.
    rewrite (proj2 (hash_eqb_true h h) eq_refl). cbn [CHECK_AND_ASSERT_MES].
    rewrite (assign_same k0 h (m_points this) Hord Hfind).
    rewrite set_m_points_same. reflexivity. }
  rewrite E. cbn [fst snd]. apply IH; [exact Hord|].
  intros k s Hin. apply Hall. right. exact Hin.
Qed.

Lemma fresh_hashlines_In prev_max_height lines k hash_str :
  In (k, hash_str) (fresh_hashlines prev_max_height lines) <->
  exists it,
    In it lines /\ height it = k /\ hash it = hash_str /\
    prev_max_height < k.
Proof.
  unfold fresh_hashlines. rewrite in_map_iff. split.
  - intros (it & [= <- <-] & Hin). apply filter_In in Hin.
    destruct Hin as [Hin Hf]. apply negb_true_iff, N.leb_gt in Hf.
    exists it. repeat split; assumption.
  - intros (it & Hin & <- & <- & Hlt). exists it. split; [reflexivity|].
    apply filter_In. split; [exact Hin|].
    apply negb_true_iff, N.leb_gt. exact Hlt.
Qed.

End BatchFacts.

(** ** The override file *)
Section OverrideFileFacts.
Context {ext : Externals}.
Implicit Types (this other : checkpoints) (h stored : crypto_hash).

(** Every anchor in the store after a run of [ADD_CHECKPOINT] was there
    before the run or is the decoded hash of a pair of the run. *)
Lemma add_checkpoints_only_pts pts :
  forall this k stored,
    StdMap.find k (m_points (snd (add_checkpoints this pts))) = Some stored ->
    StdMap.find k (m_points this) = Some stored \/
    exists hash_str, In (k, hash_str) pts /\ hex_to_pod hash_str = Some stored.
Proof.
  induction pts as [|[k0 s0] rest IH]; intros this k stored Hfind;
    [left; exact Hfind|].
  rewrite add_checkpoints_cons in Hfind.
  assert (Hstep : forall v,
             StdMap.find k (m_points (snd (add_checkpoint this k0 s0 "")))
             = Some v ->
             StdMap.find k (m_points this) = Some v \/
             exists hash_str,
               In (k, hash_str) ((k0, s0) :: rest) /\
               hex_to_pod hash_str = Some v).
  { intros v Hv.
    destruct (add_checkpoint_m_points this k0 s0 "") as [E|(h & Hdec & _ & E)];
      rewrite E in Hv; [left; exact Hv|].
    destruct (N.eq_dec k k0) as [->|Hne].
    - rewrite find_assign_eq in Hv. injection Hv as <-.
      right. exists s0. split; [left; reflexivity|exact Hdec].
    - rewrite find_assign_neq in Hv by exact Hne. left. exact Hv. }
  destruct (fst (add_checkpoint this k0 s0 "")).
  - destruct (IH _ k stored Hfind) as [Hst|(s & Hin & Hdec)].
    + exact (Hstep stored Hst).
    + right. exists s. split; [right; exact Hin|exact Hdec].
  - exact (Hstep stored Hfind).
Qed.

(** A loop that returned [false] stopped at a record above
    [prev_max_height]: the records before it were loaded with result
    [true], the store is the one they left, and the record itself does not
    decode or differs from the anchor that store holds at its height. *)
Lemma load_hashlines_false_split prev_max_height lines :
  forall this this',
    load_hashlines prev_max_height this lines = (false, this') ->
    exists before it after,
      lines = before ++ it :: after /\
      prev_max_height < height it /\
      load_hashlines prev_max_height this before = (true, this') /\
      (hex_to_pod (hash it) = None \/
       exists h stored,
         hex_to_pod (hash it) = Some h /\
         StdMap.find (height it) (m_points this') = Some stored /\
         h <> stored).
Proof.
  induction lines as [|it0 rest IH]; intros this this' Hrun;
    [discriminate Hrun|].
  cbn [load_hashlines] in Hrun.
  destruct (N.leb_spec (height it0) prev_max_height) as [Hstale|Hfresh].
  - destruct (IH this this' Hrun) as (before & it & after & -> & Hlt & Hb & Hwhy).
    exists (it0 :: before), it, after. split; [reflexivity|].
    split; [exact Hlt|]. split; [|exact Hwhy].
    cbn [load_hashlines].
    rewrite (proj2 (N.leb_le _ _) Hstale). exact Hb.
  - unfold ADD_CHECKPOINT in Hrun.
    destruct (add_checkpoint this (height it0) (hash it0) "") as [r st] eqn:E.
    destruct r; cbn [CHECK_AND_ASSERT_MES] in Hrun.
    + destruct (IH st this' Hrun)
        as (before & it & after & -> & Hlt & Hb & Hwhy).
      exists (it0 :: before), it, after. split; [reflexivity|].
      split; [exact Hlt|]. split; [|exact Hwhy].
      cbn [load_hashlines].
      rewrite (proj2 (N.leb_gt _ _) Hfresh).
      unfold ADD_CHECKPOINT. rewrite E. exact Hb.
    + injection Hrun as <-.
      apply add_checkpoint_false_inv in E. destruct E as [-> Hwhy].
      exists [], it0, rest. split; [reflexivity|].
      split; [exact Hfresh|]. split; [reflexivity|exact Hwhy].
Qed.

(** C8, amended: loading a file that parses skips every record whose height
    is at most the [get_max_height] taken before the loop, so that nothing
    at or below that height changes and the difficulty map is left as it
    was, and it puts the other records, in file order, through
    [add_checkpoint] up to the first one that fails.  Every anchor the
    store held is kept and every new anchor is the decoded hash of a record
    above that height.  When the call returns [true], every record above
    that height is in the hash map under its decoded hash.  When it returns
    [false], the file splits into the records before a record above that
    height, that record, and the records after it: the records before it
    were loaded with result [true] and the object is the one they left (the
    records after it are not tried), and that record does not decode or
    differs from the anchor held at its height.  So when every record is at
    or below that height the call returns [true] and the object is left as
    it was. *)
Theorem load_checkpoints_from_json_skips_stale this hashes :
  m_difficulty_points
    (snd (load_checkpoints_from_json this (file_parsed hashes)))
  = m_difficulty_points this /\
  (forall k stored,
     StdMap.find k (m_points this) = Some stored ->
     StdMap.find k
       (m_points (snd (load_checkpoints_from_json this (file_parsed hashes))))
     = Some stored) /\
  (forall k stored,
     StdMap.find k
       (m_points (snd (load_checkpoints_from_json this (file_parsed hashes))))
     = Some stored ->
     StdMap.find k (m_points this) = Some stored \/
     exists it,
       In it (hashlines hashes) /\ get_max_height this < height it /\
       height it = k /\ hex_to_pod (hash it) = Some stored) /\
  (forall k,
     k <= get_max_height this ->
     StdMap.find k
       (m_points (snd (load_checkpoints_from_json this (file_parsed hashes))))
     = StdMap.find k (m_points this)) /\
  (fst (load_checkpoints_from_json this (file_parsed hashes)) = true ->
   forall it,
     In it (hashlines hashes) -> get_max_height this < height it ->
     exists h,
       hex_to_pod (hash it) = Some h /\
       StdMap.find (height it)
         (m_points
            (snd (load_checkpoints_from_json this (file_parsed hashes))))
       = Some h) /\
  (fst (load_checkpoints_from_json this (file_parsed hashes)) = false ->
   exists before it after,
     hashlines hashes = before ++ it :: after /\
     get_max_height this < height it /\
     load_checkpoints_from_json this (file_parsed {| hashlines := before |})
     = (true, snd (load_checkpoints_from_json this (file_parsed hashes))) /\
     (hex_to_pod (hash it) = None \/
      exists h stored,
        hex_to_pod (hash it) = Some h /\
        StdMap.find (height it)
          (m_points
             (snd (load_checkpoints_from_json this (file_parsed hashes))))
        = Some stored /\
        h <> stored)) /\
  ((forall it, In it (hashlines hashes) ->
      height it <= get_max_height this) ->
   load_checkpoints_from_json this (file_parsed hashes) = (true, this)).
Proof.
  cbn [load_checkpoints_from_json hashlines].
  destruct (add_checkpoints_frame
              (fresh_hashlines (get_max_height this) (hashlines hashes)) this)
    as (Hd & Hkeep & _).
  rewrite <- load_hashlines_fresh in Hd, Hkeep.
  assert (Honly : forall k stored,
             StdMap.find k
               (m_points
                  (snd (load_hashlines (get_max_height this) this
                          (hashlines hashes))))
             = Some stored ->
             StdMap.find k (m_points this) = Some stored \/
             exists it,
               In it (hashlines hashes) /\ get_max_height this < height it /\
               height it = k /\ hex_to_pod (hash it) = Some stored).
  { intros k stored Hfind. rewrite load_hashlines_fresh in Hfind.
    destruct (add_checkpoints_only_pts _ this k stored Hfind)
      as [Hold|(s & Hin & Hdec)]; [left; exact Hold|right].
    apply fresh_hashlines_In in Hin.
    destruct Hin as (it & Hin & <- & <- & Hlt).
    exists it. split; [exact Hin|]. split; [exact Hlt|].
    split; [reflexivity|exact Hdec]. }
  split; [exact Hd|]. split; [exact Hkeep|]. split; [exact Honly|].
  split; [|split; [|split]].
  - intros k Hle.
    destruct (StdMap.find k (m_points this)) as [stored|] eqn:Eold.
    + exact (Hkeep k stored Eold).
    + destruct (StdMap.find k
                  (m_points
                     (snd (load_hashlines (get_max_height this) this
                             (hashlines hashes))))) as [stored|] eqn:Enew;
        [|reflexivity].
      destruct (Honly k stored Enew) as [Hold|(it & _ & Hlt & Hk & _)];
        [congruence|lia].
  - intros Hr it Hin Hlt.
    destruct (load_hashlines (get_max_height this) this (hashlines hashes))
      as [r this'] eqn:E.
    cbn [fst snd] in *. subst r. rewrite load_hashlines_fresh in E.
    apply (add_checkpoints_true_present _ this this' E).
    apply fresh_hashlines_In. exists it. repeat split; assumption.
  - intros Hr.
    destruct (load_hashlines (get_max_height this) this (hashlines hashes))
      as [r this'] eqn:E.
    cbn [fst snd] in *. subst r.
    exact (load_hashlines_false_split _ _ this this' E).
  - intros Hall. rewrite load_hashlines_fresh.
    rewrite (fresh_hashlines_all_stale _ _ Hall). reflexivity.
Qed.

End OverrideFileFacts.

(** ** Facts about the loaders *)
Section LoaderFacts.
Context {ext : Externals} {dns_ext : DnsExternals}.
Implicit Types (this other : checkpoints) (h stored : crypto_hash).

Lemma load_dns_records_checkpoints records :
  forall this,
    load_dns_records this records
    = add_checkpoints this (dns_checkpoints records).
Proof.
  induction records as [|record rest IH]; intros this; [reflexivity|].
  cbn [load_dns_records dns_checkpoints]. unfold dns_record.
  destruct (find_colon record) as [pos|]; [|apply IH].
  destruct (stream_uint64 (substring 0 pos record)) as [k|]; [|apply IH].
  destruct (hex_to_pod (substr_from record (pos + 1))) as [h|]; [|apply IH].
  cbn [add_checkpoints]. unfold ADD_CHECKPOINT.
  destruct (add_checkpoint this k (substr_from record (pos + 1)) "")
    as [r this'].
  destruct r; cbn [CHECK_AND_ASSERT_MES]; [apply IH|reflexivity].
Qed.

Lemma dns_record_Some record k hash_str :
  dns_record record = Some (k, hash_str) <->
  exists pos,
    find_colon record = Some pos /\
    stream_uint64 (substring 0 pos record) = Some k /\
    hash_str = substr_from record (pos + 1) /\
    exists h, hex_to_pod hash_str = Some h.
Proof.
  unfold dns_record. split.
  - destruct (find_colon record) as [pos|]; [|discriminate].
    destruct (stream_uint64 (substring 0 pos record)) as [k0|] eqn:Ek;
      [|discriminate].
    destruct (hex_to_pod (substr_from record (pos + 1))) as [h|] eqn:Eh;
      [|discriminate].
    intros [= <- <-]. exists pos.
    split; [reflexivity|]. split; [exact Ek|]. split; [reflexivity|].
    exists h. exact Eh.
  - intros (pos & -> & -> & -> & h & ->). reflexivity.
Qed.

Lemma dns_checkpoints_In records k hash_str :
  In (k, hash_str) (dns_checkpoints records) <->
  exists record, In record records /\ dns_record record = Some (k, hash_str).
Proof.
  induction records as [|record rest IH]; cbn [dns_checkpoints].
  - split; [intros []|intros (? & [] & _)].
  - destruct (dns_record record) as [pt|] eqn:E.
    + cbn [In]. rewrite IH. split.
      * intros [->|(r & Hin & Hr)].
        -- exists record. split; [left; reflexivity|exact E].
        -- exists r. split; [right; exact Hin|exact Hr].
      * intros (r & [<-|Hin] & Hr).
        -- left. congruence.
        -- right. exists r. split; assumption.
    + rewrite IH. split.
      * intros (r & Hin & Hr). exists r. split; [right; exact Hin|exact Hr].
      * intros (r & [<-|Hin] & Hr); [congruence|].
        exists r. split; assumption.
Qed.

(** Loading a file into a store that already holds every record above
    [prev_max_height], and whose own highest checkpoint is not below
    [prev_max_height], changes nothing. *)
Lemma load_json_present_noop this hashes prev_max_height :
  StdMap.ordered (m_points this) = true ->
  prev_max_height <= get_max_height this ->
  (forall it,
     In it (hashlines hashes) -> prev_max_height < height it ->
     exists h, StdMap.find (height it) (m_points this) = Some h) ->
  load_checkpoints_from_json this (file_parsed hashes) = (true, this).
Proof.
  intros Hord Hle Hall. cbn [load_checkpoints_from_json].
  rewrite load_hashlines_fresh.
  rewrite fresh_hashlines_all_stale; [reflexivity|].
  intros it Hin.
  destruct (N.le_gt_cases (height it) prev_max_height) as [H|H]; [lia|].
  destruct (Hall it Hin H) as (h & Hfind).
  exact (proj2 (find_le_max this (height it) h Hord Hfind)).
Qed.

(** Reading DNS records into a store that already holds every record that
    would reach [ADD_CHECKPOINT] changes nothing. *)
Lemma load_dns_present_noop this records :
  StdMap.ordered (m_points this) = true ->
  (forall k hash_str,
     In (k, hash_str) (dns_checkpoints records) ->
     exists h,
       hex_to_pod hash_str = Some h /\
       StdMap.find k (m_points this) = Some h) ->
  load_dns_records this records = (true, this).
Proof.
  intros Hord Hall. rewrite load_dns_records_checkpoints.
  exact (add_checkpoints_present_noop _ this Hord Hall).
Qed.

Lemma load_checkpoints_from_json_frame this json_hashfile :
  m_difficulty_points (snd (load_checkpoints_from_json this json_hashfile))
  = m_difficulty_points this /\
  (forall k stored,
     StdMap.find k (m_points this) = Some stored ->
     StdMap.find k
       (m_points (snd (load_checkpoints_from_json this json_hashfile)))
     = Some stored) /\
  (StdMap.ordered (m_points this) = true ->
   StdMap.ordered
     (m_points (snd (load_checkpoints_from_json this json_hashfile))) = true /\
   get_max_height this
   <= get_max_height (snd (load_checkpoints_from_json this json_hashfile))).
Proof.
  destruct json_hashfile as [| |hashes]; cbn [load_checkpoints_from_json snd].
  - split; [reflexivity|]. split; [intros k stored H; exact H|].
    intros H. split; [exact H|apply N.le_refl].
  - split; [reflexivity|]. split; [intros k stored H; exact H|].
    intros H. split; [exact H|apply N.le_refl].
  - rewrite load_hashlines_fresh. apply add_checkpoints_frame.
Qed.

Lemma load_checkpoints_from_dns_frame this nettype :
  m_difficulty_points (snd (load_checkpoints_from_dns this nettype))
  = m_difficulty_points this /\
  (forall k stored,
     StdMap.find k (m_points this) = Some stored ->
     StdMap.find k (m_points (snd (load_checkpoints_from_dns this nettype)))
     = Some stored) /\
  (StdMap.ordered (m_points this) = true ->
   StdMap.ordered
     (m_points (snd (load_checkpoints_from_dns this nettype))) = true /\
   get_max_height this
   <= get_max_height (snd (load_checkpoints_from_dns this nettype))).
Proof.
  unfold load_checkpoints_from_dns.
  destruct (load_txt_records_from_dns _) as [records|]; cbn [snd].
  - rewrite load_dns_records_checkpoints. apply add_checkpoints_frame.
  - split; [reflexivity|]. split; [intros k stored H; exact H|].
    intros H. split; [exact H|apply N.le_refl].
Qed.

(** X16: after a file load that returned [true], every record above the
    height taken before the loop is in the store under its decoded hash,
    and [check_block] passes that hash there. *)
Theorem load_checkpoints_from_json_loaded this hashes this' it :
  load_checkpoints_from_json this (file_parsed hashes) = (true, this') ->
  In it (hashlines hashes) ->
  get_max_height this < height it ->
  exists h,
    hex_to_pod (hash it) = Some h /\
    StdMap.find (height it) (m_points this') = Some h /\
    check_block this' (height it) h = (true, true).
Proof.
  cbn [load_checkpoints_from_json]. rewrite load_hashlines_fresh.
  intros Hrun Hin Hlt.
  destruct (add_checkpoints_true_present _ this this' Hrun (height it) (hash it))
    as (h & Hdec & Hfind).
  { apply fresh_hashlines_In. exists it. repeat split; assumption. }
  exists h. split; [exact Hdec|]. split; [exact Hfind|].
  unfold check_block. rewrite Hfind.
  rewrite (proj2 (hash_eqb_true h h) eq_refl). reflexivity.
Qed.

(** X17: a file load that returned [false] on a parsed file met a record
    above the height taken before the loop whose hash string does not
    decode, or whose hash differs from the hash of another record of the
    file at the same height; the checkpoints the store held before the load
    are never the cause. *)
Theorem load_checkpoints_from_json_failure this hashes this' :
  StdMap.ordered (m_points this) = true ->
  load_checkpoints_from_json this (file_parsed hashes) = (false, this') ->
  exists it,
    In it (hashlines hashes) /\
    get_max_height this < height it /\
    (hex_to_pod (hash it) = None \/
     exists it' h h',
       In it' (hashlines hashes) /\ height it' = height it /\
       hex_to_pod (hash it) = Some h /\ hex_to_pod (hash it') = Some h' /\
       h <> h').
Proof.
  intros Hord. cbn [load_checkpoints_from_json]. rewrite load_hashlines_fresh.
  intros Hrun.
  destruct (add_checkpoints_false_inv _ this this' Hrun)
    as (k & s & Hin & Hwhy).
  apply fresh_hashlines_In in Hin. destruct Hin as (it & Hin & <- & <- & Hlt).
  exists it. split; [exact Hin|]. split; [exact Hlt|].
  destruct Hwhy as [Hnone|(h & stored & Hdec & Hne & _ & Hfrom)];
    [left; exact Hnone|right].
  destruct Hfrom as [Hold|(s' & Hin' & Hdec')].
  - pose proof (proj2 (find_le_max this _ stored Hord Hold)). lia.
  - apply fresh_hashlines_In in Hin'.
    destruct Hin' as (it' & Hin' & Hh & <- & _).
    exists it', h, stored. repeat split; assumption.
Qed.

(** X18: loading the same file again after a load that returned [true]
    returns [true] and changes nothing. *)
Theorem load_checkpoints_from_json_reload this json_hashfile this' :
  StdMap.ordered (m_points this) = true ->
  load_checkpoints_from_json this json_hashfile = (true, this') ->
  load_checkpoints_from_json this' json_hashfile = (true, this').
Proof.
  intros Hord Hrun.
  destruct json_hashfile as [| |hashes]; [reflexivity|discriminate Hrun|].
  destruct (load_checkpoints_from_json_frame this (file_parsed hashes))
    as (_ & _ & Hkeep).
  rewrite Hrun in Hkeep. cbn [snd] in Hkeep.
  destruct (Hkeep Hord) as [Hord' Hle].
  apply (load_json_present_noop this' hashes (get_max_height this) Hord' Hle).
  intros it Hin Hlt.
  cbn [load_checkpoints_from_json] in Hrun.
  rewrite load_hashlines_fresh in Hrun.
  destruct (add_checkpoints_true_present _ this this' Hrun (height it) (hash it))
    as (h & _ & Hfind).
  { apply fresh_hashlines_In. exists it. repeat split; assumption. }
  exists h. exact Hfind.
Qed.

(** X19: after a DNS load that returned [true], every record of the answer
    that has a colon, a height that extracts and a hash string that decodes
    is in the store under that height and hash. *)
Theorem load_checkpoints_from_dns_loaded
  this nettype this' records record pos k h :
  load_checkpoints_from_dns this nettype = (true, this') ->
  load_txt_records_from_dns (selected_dns_urls nettype) = Some records ->
  In record records ->
  find_colon record = Some pos ->
  stream_uint64 (substring 0 pos record) = Some k ->
  hex_to_pod (substr_from record (pos + 1)) = Some h ->
  StdMap.find k (m_points this') = Some h.
Proof.
  unfold load_checkpoints_from_dns. intros Hrun Hdns Hin Hpos Hk Hh.
  rewrite Hdns, load_dns_records_checkpoints in Hrun.
  destruct (add_checkpoints_true_present _ this this' Hrun k
              (substr_from record (pos + 1)))
    as (h' & Hdec & Hfind).
  { apply dns_checkpoints_In. exists record. split; [exact Hin|].
    apply dns_record_Some. exists pos. repeat split; try assumption.
    exists h. exact Hh. }
  congruence.
Qed.

(** X20: a DNS load returns [true] and changes nothing when the lookup
    fails, and when every record of the answer is malformed: no colon, a
    height that does not extract, or a hash string that does not decode. *)
Theorem load_checkpoints_from_dns_skips_malformed this nettype :
  (load_txt_records_from_dns (selected_dns_urls nettype) = None ->
   load_checkpoints_from_dns this nettype = (true, this)) /\
  (forall records,
     load_txt_records_from_dns (selected_dns_urls nettype) = Some records ->
     (forall record,
        In record records ->
        find_colon record = None \/
        exists pos,
          find_colon record = Some pos /\
          (stream_uint64 (substring 0 pos record) = None \/
           hex_to_pod (substr_from record (pos + 1)) = None)) ->
     load_checkpoints_from_dns this nettype = (true, this)).
Proof.
  unfold load_checkpoints_from_dns. split.
  - intros ->. reflexivity.
  - intros records -> Hall. rewrite load_dns_records_checkpoints.
    assert (E : dns_checkpoints records = []).
    { clear -Hall. induction records as [|record rest IH]; [reflexivity|].
      cbn [dns_checkpoints].
      assert (Hr : dns_record record = None).
      { unfold dns_record.
        destruct (Hall record (or_introl eq_refl))
          as [->|(pos & -> & [->| ->])]; try reflexivity.
        destruct (stream_uint64 (substring 0 pos record)); reflexivity. }
      rewrite Hr. apply IH. intros r Hin. apply Hall. right. exact Hin. }
    rewrite E. reflexivity.
Qed.

(** X21: a DNS load returns [false] only on a conflict: some record of the
    answer has a height that extracts and a hash that decodes, and the
    store holds another hash at that height. *)
Theorem load_checkpoints_from_dns_failure this nettype this' :
  load_checkpoints_from_dns this nettype = (false, this') ->
  exists records record pos k h stored,
    load_txt_records_from_dns (selected_dns_urls nettype) = Some records /\
    In record records /\
    find_colon record = Some pos /\
    stream_uint64 (substring 0 pos record) = Some k /\
    hex_to_pod (substr_from record (pos + 1)) = Some h /\
    StdMap.find k (m_points this') = Some stored /\
    h <> stored.
Proof.
  unfold load_checkpoints_from_dns.
  destruct (load_txt_records_from_dns _) as [records|]; [|discriminate].
  rewrite load_dns_records_checkpoints. intros Hrun.
  destruct (add_checkpoints_false_inv _ this this' Hrun)
    as (k & s & Hin & Hwhy).
  apply dns_checkpoints_In in Hin. destruct Hin as (record & Hin & Hrec).
  apply dns_record_Some in Hrec.
  destruct Hrec as (pos & Hpos & Hk & -> & h0 & Hh0).
  destruct Hwhy as [Hnone|(h & stored & Hdec & Hne & Hfind & _)];
    [congruence|].
  exists records, record, pos, k, h, stored. repeat split; assumption.
Qed.

(** X22: a second DNS load with the same answer, after one that returned
    [true], returns [true] and changes nothing. *)
Theorem load_checkpoints_from_dns_reload this nettype this' :
  StdMap.ordered (m_points this) = true ->
  load_checkpoints_from_dns this nettype = (true, this') ->
  load_checkpoints_from_dns this' nettype = (true, this').
Proof.
  intros Hord Hrun.
  destruct (load_checkpoints_from_dns_frame this nettype) as (_ & _ & Hkeep).
  rewrite Hrun in Hkeep. cbn [snd] in Hkeep.
  destruct (Hkeep Hord) as [Hord' _].
  unfold load_checkpoints_from_dns in *.
  destruct (load_txt_records_from_dns _) as [records|]; [|reflexivity].
  apply (load_dns_present_noop this' records Hord').
  rewrite load_dns_records_checkpoints in Hrun.
  exact (add_checkpoints_true_present _ this this' Hrun).
Qed.

End LoaderFacts.

(** ** Facts about the loaders run one after the other *)
Section LoaderSequenceFacts.
Context {ext : Externals} {dns_ext : DnsExternals}.
Implicit Types (this other : checkpoints) (h stored : crypto_hash).

(** A file that loaded into a store loads without effect into every later
    store that kept the anchors. *)
Lemma load_json_later_noop this json_hashfile this1 this' :
  StdMap.ordered (m_points this) = true ->
  load_checkpoints_from_json this json_hashfile = (true, this1) ->
  StdMap.ordered (m_points this') = true ->
  get_max_height this <= get_max_height this' ->
  (forall k stored,
     StdMap.find k (m_points this1) = Some stored ->
     StdMap.find k (m_points this') = Some stored) ->
  load_checkpoints_from_json this' json_hashfile = (true, this').
Proof.
  intros Hord Hrun Hord' Hle Hkeep.
  destruct json_hashfile as [| |hashes]; [reflexivity|discriminate Hrun|].
  apply (load_json_present_noop this' hashes (get_max_height this) Hord' Hle).
  intros it Hin Hlt.
  cbn [load_checkpoints_from_json] in Hrun.
  rewrite load_hashlines_fresh in Hrun.
  destruct (add_checkpoints_true_present _ this this1 Hrun (height it) (hash it))
    as (h & _ & Hfind).
  { apply fresh_hashlines_In. exists it. repeat split; assumption. }
  exists h. exact (Hkeep _ _ Hfind).
Qed.

(** A DNS answer that loaded into a store loads without effect into every
    later store that kept the anchors. *)
Lemma load_dns_later_noop this nettype this1 this' :
  load_checkpoints_from_dns this nettype = (true, this1) ->
  StdMap.ordered (m_points this') = true ->
  (forall k stored,
     StdMap.find k (m_points this1) = Some stored ->
     StdMap.find k (m_points this') = Some stored) ->
  load_checkpoints_from_dns this' nettype = (true, this').
Proof.
  intros Hrun Hord' Hkeep. unfold load_checkpoints_from_dns in *.
  destruct (load_txt_records_from_dns _) as [records|]; [|reflexivity].
  apply (load_dns_present_noop this' records Hord').
  rewrite load_dns_records_checkpoints in Hrun.
  intros k s Hin.
  destruct (add_checkpoints_true_present _ this this1 Hrun k s Hin)
    as (h & Hdec & Hfind).
  exists h. split; [exact Hdec|exact (Hkeep _ _ Hfind)].
Qed.

(** X23: [load_new_checkpoints], whatever the file, the network, the DNS
    flag and the result, leaves the difficulty map as it was, keeps every
    hash anchor the store held, keeps both maps in key order and does not
    lower [get_max_height]. *)
Theorem load_new_checkpoints_preserves this json_hashfile nettype dns :
  m_difficulty_points
    (snd (load_new_checkpoints this json_hashfile nettype dns))
  = m_difficulty_points this /\
  (forall k stored,
     StdMap.find k (m_points this) = Some stored ->
     StdMap.find k
       (m_points (snd (load_new_checkpoints this json_hashfile nettype dns)))
     = Some stored) /\
  (well_formed this = true ->
   well_formed (snd (load_new_checkpoints this json_hashfile nettype dns))
   = true /\
   get_max_height this
   <= get_max_height
        (snd (load_new_checkpoints this json_hashfile nettype dns))).
Proof.
  unfold load_new_checkpoints.
  destruct (load_checkpoints_from_json_frame this json_hashfile)
    as (Hd1 & Hk1 & Ho1).
  destruct (load_checkpoints_from_json this json_hashfile) as [r1 this1].
  cbn [snd] in *.
  assert (Hwf : forall this2,
             m_difficulty_points this2 = m_difficulty_points this ->
             (StdMap.ordered (m_points this) = true ->
              StdMap.ordered (m_points this2) = true /\
              get_max_height this <= get_max_height this2) ->
             well_formed this = true ->
             well_formed this2 = true /\
             get_max_height this <= get_max_height this2).
  { unfold well_formed. intros this2 Hd Ho Hw.
    apply andb_true_iff in Hw. destruct Hw as [Hp Hq].
    destruct (Ho Hp) as [Hp2 Hle]. split; [|exact Hle].
    rewrite Hd, Hp2, Hq. reflexivity. }
  destruct dns.
  - destruct (load_checkpoints_from_dns_frame this1 nettype)
      as (Hd2 & Hk2 & Ho2).
    destruct (load_checkpoints_from_dns this1 nettype) as [r2 this2].
    cbn [snd] in *.
    split; [congruence|]. split.
    + intros k stored Hk. apply Hk2, Hk1, Hk.
    + apply Hwf; [congruence|]. intros Hp.
      destruct (Ho1 Hp) as [Hp1 Hle1]. destruct (Ho2 Hp1) as [Hp2 Hle2].
      split; [exact Hp2|lia].
  - cbn [snd]. split; [exact Hd1|]. split; [exact Hk1|].
    apply Hwf; assumption.
Qed.

(** X24: running [load_new_checkpoints] again with the same file and the
    same DNS answer, after a run that returned [true], returns [true] and
    changes nothing. *)
Theorem load_new_checkpoints_reload this json_hashfile nettype dns this' :
  StdMap.ordered (m_points this) = true ->
  load_new_checkpoints this json_hashfile nettype dns = (true, this') ->
  load_new_checkpoints this' json_hashfile nettype dns = (true, this').
Proof.
  intros Hord. unfold load_new_checkpoints.
  destruct (load_checkpoints_from_json_frame this json_hashfile)
    as (_ & _ & Ho1).
  destruct (load_checkpoints_from_json this json_hashfile) as [r1 this1] eqn:E1.
  cbn [snd] in Ho1. destruct (Ho1 Hord) as [Hord1 Hle1].
  destruct dns.
  - destruct (load_checkpoints_from_dns_frame this1 nettype)
      as (_ & Hk2 & Ho2).
    destruct (load_checkpoints_from_dns this1 nettype) as [r2 this2] eqn:E2.
    cbn [snd] in Hk2, Ho2. destruct (Ho2 Hord1) as [Hord2 Hle2].
    intros [= Hr <-]. apply andb_true_iff in Hr. destruct Hr as [-> ->].
    rewrite (load_json_later_noop this json_hashfile this1 this2
               Hord E1 Hord2 (N.le_trans _ _ _ Hle1 Hle2) Hk2).
    rewrite (load_dns_later_noop this1 nettype this2 this2 E2 Hord2
               (fun k stored H => H)).
    reflexivity.
  - intros [= -> <-].
    rewrite (load_json_later_noop this json_hashfile this1 this1
               Hord E1 Hord1 Hle1 (fun k stored H => H)).
    reflexivity.
Qed.

(** X25: [init_default_checkpoints] does nothing on the test and stage
    networks; on every network and whatever it returns it leaves the
    difficulty map as it was and keeps every hash anchor the store held. *)
Theorem init_default_checkpoints_preserves this nettype :
  (nettype <> MAINNET ->
   init_default_checkpoints this nettype = (true, this)) /\
  m_difficulty_points (snd (init_default_checkpoints this nettype))
  = m_difficulty_points this /\
  (forall k stored,
     StdMap.find k (m_points this) = Some stored ->
     StdMap.find k (m_points (snd (init_default_checkpoints this nettype)))
     = Some stored).
Proof.
  destruct nettype; cbn [init_default_checkpoints snd].
  - split; [intros H; contradiction|].
    destruct (add_checkpoints_frame default_checkpoints this) as (Hd & Hk & _).
    split; assumption.
  - split; [reflexivity|]. split; [reflexivity|intros k stored H; exact H].
  - split; [reflexivity|]. split; [reflexivity|intros k stored H; exact H].
Qed.

(** X26: running [init_default_checkpoints] again after a run that
    returned [true] returns [true] and changes nothing. *)
Theorem init_default_checkpoints_twice this nettype this' :
  StdMap.ordered (m_points this) = true ->
  init_default_checkpoints this nettype = (true, this') ->
  init_default_checkpoints this' nettype = (true, this').
Proof.
  intros Hord. destruct nettype; cbn [init_default_checkpoints];
    [|reflexivity|reflexivity].
  intros Hrun.
  destruct (add_checkpoints_frame default_checkpoints this) as (_ & _ & Ho).
  rewrite Hrun in Ho. cbn [snd] in Ho. destruct (Ho Hord) as [Hord' _].
  apply (add_checkpoints_present_noop _ this' Hord').
  exact (add_checkpoints_true_present _ this this' Hrun).
Qed.

End LoaderSequenceFacts.

(** ** The added facts on concrete inputs *)
Section MoreRuns.
Import Instance.

(** A result whose first component computes to [true] or [false]. *)
Lemma run_true (A : Type) (r : bool * A) : fst r = true -> r = (true, snd r).
Proof. destruct r as [b a]. cbn. intros ->. reflexivity. Qed.

Lemma run_false (A : Type) (r : bool * A) :
  fst r = false -> r = (false, snd r).
Proof. destruct r as [b a]. cbn. intros ->. reflexivity. Qed.

(** X2 on the empty store, inserting height 500. *)
Lemma add_checkpoint_then_check_block_run :
  exists h,
    hex_to_pod hash_500 = Some h /\
    StdMap.find 500 (m_points (snd (add_checkpoint new_checkpoints 500 hash_500 "")))
    = Some h /\
    check_block (snd (add_checkpoint new_checkpoints 500 hash_500 "")) 500 h
    = (true, true) /\
    (forall h', h' <> h ->
       check_block (snd (add_checkpoint new_checkpoints 500 hash_500 "")) 500 h'
       = (false, true)).
Proof.
  apply (add_checkpoint_then_check_block new_checkpoints 500 hash_500 "").
  apply run_true. vm_compute. reflexivity.
Defined.

(** X3 on [two_points]: a rejected and an accepted call at height 500 leave
    height 100 alone. *)
Lemma add_checkpoint_other_heights_run :
  StdMap.find 100 (m_points (snd (add_checkpoint two_points 500 hash_100 "9")))
  = StdMap.find 100 (m_points two_points) /\
  StdMap.find 100
    (m_difficulty_points (snd (add_checkpoint two_points 500 hash_100 "9")))
  = StdMap.find 100 (m_difficulty_points two_points).
Proof.
  apply (add_checkpoint_other_heights two_points 500 hash_100 "9" 100).
  intros H. discriminate H.
Defined.

(** X5 on [two_points] at the new height 1000 with a difficulty string that
    is not a number. *)
Lemma add_checkpoint_difficulty_parse_failure_run :
  add_checkpoint two_points 1000 hash_500 "many"
  = (false,
     set_m_points two_points
       (StdMap.assign 1000 pod_500 (m_points two_points))) /\
  StdMap.find 1000
    (m_points (snd (add_checkpoint two_points 1000 hash_500 "many")))
  = Some pod_500.
Proof.
  apply (add_checkpoint_difficulty_parse_failure
           two_points 1000 hash_500 "many" pod_500).
  - vm_compute. reflexivity.
  - intros stored H. vm_compute in H. discriminate H.
  - intros H. discriminate H.
  - vm_compute. reflexivity.
Defined.

(** X6 on [two_points], whose only difficulty anchor is at height 100. *)
Lemma add_checkpoint_difficulty_points_anchored_run :
  exists h,
    StdMap.find 100
      (m_points (snd (add_checkpoint two_points 1000 hash_500 "12")))
    = Some h.
Proof.
  apply (add_checkpoint_difficulty_points_anchored
           two_points 1000 hash_500 "12") with (k := 100) (d := 7).
  - intros k d H.
    assert (Ed : m_difficulty_points two_points = [(100, 7)])
      by (vm_compute; reflexivity).
    assert (Ep : m_points two_points = [(100, pod_100); (500, pod_500)])
      by (vm_compute; reflexivity).
    rewrite Ed in H. rewrite Ep. cbn [StdMap.find] in H |- *.
    destruct (k =? 100); [exists pod_100; reflexivity|discriminate H].
  - vm_compute. reflexivity.
Defined.

(** X7 on [two_points]: inserting above and below the highest checkpoint. *)
Lemma add_checkpoint_max_height_run :
  get_max_height (snd (add_checkpoint two_points 1000 hash_500 ""))
  = N.max (get_max_height two_points) 1000 /\
  get_max_height (snd (add_checkpoint two_points 7 hash_500 ""))
  = N.max (get_max_height two_points) 7.
Proof.
  split.
  - apply (add_checkpoint_max_height two_points 1000 hash_500 "");
      vm_compute; reflexivity.
  - apply (add_checkpoint_max_height two_points 7 hash_500 "");
      vm_compute; reflexivity.
Defined.

(** X8 on [two_points]: height 300 stays in the zone and the inserted
    height 1000 enters it. *)
Lemma is_in_checkpoint_zone_grows_run :
  is_in_checkpoint_zone
    (snd (add_checkpoint two_points 1000 hash_500 "")) 300 = true /\
  is_in_checkpoint_zone
    (snd (add_checkpoint two_points 1000 hash_500 "")) 1000 = true.
Proof.
  destruct (is_in_checkpoint_zone_grows two_points 1000 hash_500 "" 300)
    as [Hold Hnew].
  - vm_compute. reflexivity.
  - split; [apply Hold|apply Hnew]; vm_compute; reflexivity.
Defined.

(** X9 on [two_points]: height 501 is outside the zone. *)
Lemma check_block_outside_zone_run :
  check_block two_points 501 pod_500 = (true, false).
Proof.
  apply (check_block_outside_zone two_points 501 pod_500);
    vm_compute; reflexivity.
Defined.

(** X10 on [two_points]: block 501 with the chain at 100000. *)
Lemma is_alternative_block_allowed_above_max_run :
  is_alternative_block_allowed two_points 100000 501 = true.
Proof.
  apply (is_alternative_block_allowed_above_max two_points 100000 501);
    vm_compute; reflexivity.
Defined.

(** X11 on [two_points]: the chain is at 250, past checkpoint 100. *)
Lemma is_alternative_block_allowed_passed_checkpoint_run :
  is_alternative_block_allowed two_points 250 100 = false.
Proof.
  apply (is_alternative_block_allowed_passed_checkpoint two_points 250 100 100).
  - vm_compute. reflexivity.
  - vm_compute. left. reflexivity.
  - vm_compute. intros H. discriminate H.
  - vm_compute. intros H. discriminate H.
Defined.

(** X12 on [two_points]: from chain 600 and block 501 to chain 450 and
    block 502. *)
Lemma is_alternative_block_allowed_monotone_run :
  is_alternative_block_allowed two_points 450 502 = true.
Proof.
  apply (is_alternative_block_allowed_monotone two_points 600 450 501 502).
  - vm_compute. reflexivity.
  - vm_compute. intros H. discriminate H.
  - vm_compute. intros H. discriminate H.
  - vm_compute. reflexivity.
Defined.

(** X13 on [two_points] and [other_points], which disagree at 500. *)
Lemma check_for_conflicts_symmetric_run :
  check_for_conflicts two_points other_points
  = check_for_conflicts other_points two_points.
Proof.
  apply (check_for_conflicts_symmetric two_points other_points);
    vm_compute; reflexivity.
Defined.

(** X14 on the compiled checkpoints. *)
Lemma check_for_conflicts_reflexive_run :
  check_for_conflicts mainnet mainnet = true.
Proof.
  apply (check_for_conflicts_reflexive mainnet). vm_compute. reflexivity.
Defined.

(** X15 on [two_points]: a rejected call at 500 and an accepted call with
    a difficulty at 1000. *)
Lemma add_checkpoint_commute_run :
  snd (add_checkpoint (snd (add_checkpoint two_points 500 hash_100 "3"))
         1000 hash_500 "12")
  = snd (add_checkpoint (snd (add_checkpoint two_points 1000 hash_500 "12"))
           500 hash_100 "3") /\
  fst (add_checkpoint (snd (add_checkpoint two_points 500 hash_100 "3"))
         1000 hash_500 "12")
  = fst (add_checkpoint two_points 1000 hash_500 "12") /\
  fst (add_checkpoint (snd (add_checkpoint two_points 1000 hash_500 "12"))
         500 hash_100 "3")
  = fst (add_checkpoint two_points 500 hash_100 "3").
Proof.
  apply (add_checkpoint_commute two_points 500 hash_100 "3" 1000 hash_500 "12").
  intros H. discriminate H.
Defined.

(** X16 on [two_points] and [fresh_file]: the record at height 1000. *)
Lemma load_checkpoints_from_json_loaded_run :
  exists h,
    hex_to_pod (hash line_1000) = Some h /\
    StdMap.find (height line_1000)
      (m_points
         (snd (load_checkpoints_from_json two_points (file_parsed fresh_file))))
    = Some h /\
    check_block
      (snd (load_checkpoints_from_json two_points (file_parsed fresh_file)))
      (height line_1000) h
    = (true, true).
Proof.
  apply (load_checkpoints_from_json_loaded two_points fresh_file).
  - apply run_true. vm_compute. reflexivity.
  - vm_compute. left. reflexivity.
  - vm_compute. reflexivity.
Defined.

(** X17 on [two_points] and [clashing_file]. *)
Lemma load_checkpoints_from_json_failure_run :
  exists it,
    In it (hashlines clashing_file) /\
    get_max_height two_points < height it /\
    (hex_to_pod (hash it) = None \/
     exists it' h h',
       In it' (hashlines clashing_file) /\ height it' = height it /\
       hex_to_pod (hash it) = Some h /\ hex_to_pod (hash it') = Some h' /\
       h <> h').
Proof.
  apply (load_checkpoints_from_json_failure two_points clashing_file
           (snd (load_checkpoints_from_json two_points
                   (file_parsed clashing_file)))).
  - vm_compute. reflexivity.
  - apply run_false. vm_compute. reflexivity.
Defined.

(** X18 on [two_points] and [fresh_file]. *)
Lemma load_checkpoints_from_json_reload_run :
  load_checkpoints_from_json
    (snd (load_checkpoints_from_json two_points (file_parsed fresh_file)))
    (file_parsed fresh_file)
  = (true,
     snd (load_checkpoints_from_json two_points (file_parsed fresh_file))).
Proof.
  apply (load_checkpoints_from_json_reload two_points (file_parsed fresh_file)).
  - vm_compute. reflexivity.
  - apply run_true. vm_compute. reflexivity.
Defined.

(** X19 on [two_points] and the stage network: the record for height
    1000, whose colon is at position 4. *)
Lemma load_checkpoints_from_dns_loaded_run :
  StdMap.find 1000
    (m_points (snd (load_checkpoints_from_dns two_points STAGENET)))
  = Some pod_500.
Proof.
  apply (load_checkpoints_from_dns_loaded two_points STAGENET
           (snd (load_checkpoints_from_dns two_points STAGENET))
           stagenet_records record_1000 4).
  - apply run_true. vm_compute. reflexivity.
  - vm_compute. reflexivity.
  - vm_compute. left. reflexivity.
  - vm_compute. reflexivity.
  - vm_compute. reflexivity.
  - vm_compute. reflexivity.
Defined.

(** X20 on the main network, where the lookup fails. *)
Lemma load_checkpoints_from_dns_skips_malformed_run :
  load_checkpoints_from_dns two_points MAINNET = (true, two_points).
Proof.
  apply (proj1 (load_checkpoints_from_dns_skips_malformed two_points MAINNET)).
  vm_compute. reflexivity.
Defined.

(** X21 on [rival_point], which holds another hash at height 1000. *)
Lemma load_checkpoints_from_dns_failure_run :
  exists records record pos k h stored,
    load_txt_records_from_dns (selected_dns_urls STAGENET) = Some records /\
    In record records /\
    find_colon record = Some pos /\
    stream_uint64 (substring 0 pos record) = Some k /\
    hex_to_pod (substr_from record (pos + 1)) = Some h /\
    StdMap.find k
      (m_points (snd (load_checkpoints_from_dns rival_point STAGENET)))
    = Some stored /\
    h <> stored.
Proof.
  apply (load_checkpoints_from_dns_failure rival_point STAGENET).
  apply run_false. vm_compute. reflexivity.
Defined.

(** X22 on [two_points] and the stage network. *)
Lemma load_checkpoints_from_dns_reload_run :
  load_checkpoints_from_dns
    (snd (load_checkpoints_from_dns two_points STAGENET)) STAGENET
  = (true, snd (load_checkpoints_from_dns two_points STAGENET)).
Proof.
  apply (load_checkpoints_from_dns_reload two_points STAGENET).
  - vm_compute. reflexivity.
  - apply run_true. vm_compute. reflexivity.
Defined.

(** X24 on [two_points], [fresh_file] and the stage network. *)
Lemma load_new_checkpoints_reload_run :
  load_new_checkpoints
    (snd (load_new_checkpoints two_points (file_parsed fresh_file)
            STAGENET true))
    (file_parsed fresh_file) STAGENET true
  = (true,
     snd (load_new_checkpoints two_points (file_parsed fresh_file)
            STAGENET true)).
Proof.
  apply (load_new_checkpoints_reload two_points (file_parsed fresh_file)
           STAGENET true).
  - vm_compute. reflexivity.
  - apply run_true. vm_compute. reflexivity.
Defined.

(** X26 on the empty store and the main network. *)
Lemma init_default_checkpoints_twice_run :
  init_default_checkpoints mainnet MAINNET = (true, mainnet).
Proof.
  apply (init_default_checkpoints_twice new_checkpoints MAINNET mainnet).
  - vm_compute. reflexivity.
  - unfold mainnet. apply run_true. vm_compute. reflexivity.
Defined.

(** C8, amended, on [two_points]: a file whose records above height 500
    all load, a file that stops at its second record, and a file with
    nothing above height 500. *)
Lemma load_checkpoints_from_json_skips_stale_run :
  (exists h,
     hex_to_pod (hash line_1000) = Some h /\
     StdMap.find (height line_1000)
       (m_points
          (snd (load_checkpoints_from_json two_points (file_parsed fresh_file))))
     = Some h) /\
  (exists before it after,
     hashlines broken_file = before ++ it :: after /\
     get_max_height two_points < height it /\
     load_checkpoints_from_json two_points
       (file_parsed {| hashlines := before |})
     = (true,
        snd (load_checkpoints_from_json two_points (file_parsed broken_file)))
     /\
     (hex_to_pod (hash it) = None \/
      exists h stored,
        hex_to_pod (hash it) = Some h /\
        StdMap.find (height it)
          (m_points
             (snd (load_checkpoints_from_json two_points
                     (file_parsed broken_file))))
        = Some stored /\
        h <> stored)) /\
  load_checkpoints_from_json two_points (file_parsed stale_file)
  = (true, two_points).
Proof.
  split; [|split].
  - destruct (load_checkpoints_from_json_skips_stale two_points fresh_file)
      as (_ & _ & _ & _ & Hloaded & _).
    apply Hloaded.
    + vm_compute. reflexivity.
    + vm_compute. left. reflexivity.
    + vm_compute. reflexivity.
  - destruct (load_checkpoints_from_json_skips_stale two_points broken_file)
      as (_ & _ & _ & _ & _ & Hstop & _).
    apply Hstop. vm_compute. reflexivity.
  - destruct (load_checkpoints_from_json_skips_stale two_points stale_file)
      as (_ & _ & _ & _ & _ & _ & Hstale).
    apply Hstale.
    intros it Hin. vm_compute in Hin.
    destruct Hin as [<-|[<-|[]]]; vm_compute; intros H; discriminate H.
Defined.

(** C8 as stated fails on [two_points] and [broken_file]: the third record
    is above the highest checkpoint 500, its hash decodes and
    [add_checkpoint] would accept it, yet the load, which returned [false]
    at the second record, has not inserted it. *)
Lemma load_checkpoints_from_json_stops_at_failure :
  get_max_height two_points = 500 /\
  In line_3000 (hashlines broken_file) /\
  get_max_height two_points < height line_3000 /\
  hex_to_pod (hash line_3000) = Some pod_100 /\
  fst (load_checkpoints_from_json two_points (file_parsed broken_file))
  = false /\
  StdMap.find 1000
    (m_points
       (snd (load_checkpoints_from_json two_points (file_parsed broken_file))))
  = Some pod_500 /\
  StdMap.find 3000
    (m_points
       (snd (load_checkpoints_from_json two_points (file_parsed broken_file))))
  = None /\
  fst (add_checkpoint
         (snd (load_checkpoints_from_json two_points (file_parsed broken_file)))
         (height line_3000) (hash line_3000) "")
  = true.
Proof.
  split; [vm_compute; reflexivity|].
  split; [right; right; left; reflexivity|].
  repeat split; vm_compute; reflexivity.
Qed.

End MoreRuns.
